(** * Verification of [scripts/feature_extraction/extract_raw_book_data.py]

    A shallow embedding of the book scraper: the listing parser
    ([get_author], [get_title_and_website]), the pagination driver
    ([scrape_books]), the detail parser and its retry loop
    ([get_book_details]), the enrichment driver ([enrich_book_data]) and
    the main block.

    Modelling decisions.
    - The network is an oracle [net : nat -> string -> response]: the
      answer to the [n]-th request of the run, sent to a given URL.  Every
      [requests.get] appends its URL to the request log of the world, so
      the oracle's first argument is the length of that log.
    - A parsed page ([BeautifulSoup] object) is represented by the results
      of the six queries the script makes on it.
    - A Python exception is a value of [exn]; a computation either returns
      or raises ([res]).  Stateful code runs in [io]: it threads the world
      (request log and the shared data frame [books_df]) and keeps the
      effects made before an exception was raised.
    - The two [while] loops are defined with a fuel argument; running out
      of fuel is the result [None], and the totality lemmas show that the
      fuel given by the callers is never exhausted.
    - A string is the sequence of the bytes of its UTF-8 encoding.
      [strip] removes the white space of Unicode at both ends, [py_int]
      reads the decimal digits and the white space of Unicode as the
      interpreter does (CPython 3.11, Unicode 14), and [lower] changes
      the ASCII letters only, which is all that the tests for "epub" and
      "pdf" can see.
    - Output on the terminal ([print]) and the CSV files are not part of
      the model. *)

From Stdlib Require Import ZArith Lia Ascii String List Bool.
From stdpp Require Import base option list strings pretty.

Local Open Scope string_scope.
Local Open Scope Z_scope.
Local Open Scope list_scope.

(** ** Strings *)

(** [sub in s] *)
Fixpoint contains (sub s : string) : bool :=
  String.prefix sub s ||
  match s with
  | EmptyString => false
  | String _ s' => contains sub s'
  end.

Definition lower_ascii (c : ascii) : ascii :=
  let n := nat_of_ascii c in
  if ((65 <=? n) && (n <=? 90))%nat then ascii_of_nat (n + 32) else c.

(** [s.lower()] *)
Fixpoint lower (s : string) : string :=
  match s with
  | EmptyString => EmptyString
  | String c s' => String (lower_ascii c) (lower s')
  end.

(** The value of a byte. *)
Definition byte (c : ascii) : Z := Z.of_nat (nat_of_ascii c).

(** The white space of [str.isspace] in the ASCII range: tab, line feed,
    vertical tab, form feed, carriage return, the four separators 28..31
    and the space. *)
Definition is_whitespace (c : ascii) : bool :=
  let n := nat_of_ascii c in
  ((n =? 32) || ((9 <=? n) && (n <=? 13)) || ((28 <=? n) && (n <=? 31)))%nat.

(** The white space of [str.isspace] encoded on two bytes: U+0085 and
    U+00A0. *)
Definition is_whitespace2 (c1 c2 : ascii) : bool :=
  (byte c1 =? 194) && ((byte c2 =? 133) || (byte c2 =? 160)).

(** The white space of [str.isspace] encoded on three bytes: U+1680,
    U+2000..U+200A, U+2028, U+2029, U+202F, U+205F and U+3000. *)
Definition is_whitespace3 (c1 c2 c3 : ascii) : bool :=
  ((byte c1 =? 225) && (byte c2 =? 154) && (byte c3 =? 128))
  || ((byte c1 =? 226) && (byte c2 =? 128)
      && (((128 <=? byte c3) && (byte c3 <=? 138))
          || (byte c3 =? 168) || (byte c3 =? 169) || (byte c3 =? 175)))
  || ((byte c1 =? 226) && (byte c2 =? 129) && (byte c3 =? 159))
  || ((byte c1 =? 227) && (byte c2 =? 128) && (byte c3 =? 128)).

(** The white space at the front of [s] is dropped.  With [back] the
    string is read from its end (it is the reversal of a string), so the
    bytes of a character come last byte first. *)
Fixpoint drop_whitespace (back : bool) (s : string) : string :=
  match s with
  | EmptyString => EmptyString
  | String c1 s1 =>
      if is_whitespace c1 then drop_whitespace back s1
      else
        match s1 with
        | EmptyString => s
        | String c2 s2 =>
            if (if back then is_whitespace2 c2 c1 else is_whitespace2 c1 c2)
            then drop_whitespace back s2
            else
              match s2 with
              | EmptyString => s
              | String c3 s3 =>
                  if (if back then is_whitespace3 c3 c2 c1
                      else is_whitespace3 c1 c2 c3)
                  then drop_whitespace back s3
                  else s
              end
        end
  end.

(** [s.lstrip()] *)
Definition lstrip (s : string) : string := drop_whitespace false s.

(** [s.strip()] *)
Definition strip (s : string) : string :=
  String.rev (drop_whitespace true (String.rev (lstrip s))).

(** [s.replace(".", "")] *)
Fixpoint remove_dots (s : string) : string :=
  match s with
  | EmptyString => EmptyString
  | String c s' =>
      if Ascii.eqb c "." then remove_dots s' else String c (remove_dots s')
  end.

(** [sep.join(l)] *)
Fixpoint join (sep : string) (l : list string) : string :=
  match l with
  | [] => ""
  | [x] => x
  | x :: l' => x +:+ sep +:+ join sep l'
  end.

(** ** Exceptions *)

Inductive exn : Type :=
| Timeout            (* requests.exceptions.Timeout and its subclasses *)
| ConnectionError    (* requests.exceptions.ConnectionError *)
| RequestException   (* every other requests.exceptions.RequestException *)
| AttributeError
| TypeError
| KeyError
| ValueError
| IndexError
| OtherError.        (* anything else *)

(** [isinstance(e, requests.exceptions.Timeout)] *)
Definition is_Timeout (e : exn) : bool :=
  match e with Timeout => true | _ => false end.

(** [isinstance(e, RequestException)]: [Timeout] and [ConnectionError]
    derive from [RequestException]. *)
Definition is_RequestException (e : exn) : bool :=
  match e with
  | Timeout | ConnectionError | RequestException => true
  | _ => false
  end.

Definition is_AttributeError (e : exn) : bool :=
  match e with AttributeError => true | _ => false end.

Inductive res (A : Type) : Type :=
| Ok (a : A)
| Raise (e : exn).
Arguments Ok {A} a.
Arguments Raise {A} e.

#[global] Instance res_ret : MRet res := fun A a => Ok a.
#[global] Instance res_bind : MBind res := fun A B f m =>
  match m with
  | Ok a => f a
  | Raise e => Raise e
  end.

(** ** Parsed pages *)

(** An [<a>] element: [a.get('href')], [a.get('title')] and [a.text]. *)
Record Anchor : Type := {
  a_href : option string;
  a_title : option string;
  a_text : string
}.

(** A [<div class="subdetail">]: [line.a] is its first nested link, or
    [None]. *)
Record Subdetail : Type := { sd_a : option Anchor }.

Record Soup : Type := {
  (* find_all('div', {"class": "subdetail"}) *)
  subdetails : list Subdetail;
  (* find_all('a', {"class": "title"}) *)
  title_links : list Anchor;
  (* find_all('a', {"class": "page-numbers"}) *)
  page_numbers : list Anchor;
  (* find('div', {"class": "realign", "id": "sinopsis"}), its text *)
  sinopsis : option string;
  (* find('div', {"id": "genero"}), its find_all('a') *)
  genero : option (list Anchor);
  (* find('div', {"id": "downloadContainer"}), its find_all('a') *)
  downloadContainer : option (list Anchor)
}.

(** ** The table *)

(** A cell of the data frame: [np.nan], [None] or a string. *)
Inductive cell : Type :=
| NaN
| PyNone
| Str (s : string).

#[global] Instance cell_eq_dec : EqDecision cell.
Proof. solve_decision. Defined.

(** A row of the frame [scrape_books] returns. *)
Record ListingRow : Type := {
  l_author : cell;
  l_title : cell;
  l_website : string
}.

(** A row of [books_df] once the four placeholder columns are added. *)
Record BookRecord : Type := {
  author : cell;
  title : cell;
  website : string;
  genre : cell;
  description : cell;
  epub : cell;
  pdf : cell
}.

Definition set_description (v : cell) (r : BookRecord) : BookRecord :=
  {| author := author r; title := title r; website := website r;
     genre := genre r; description := v; epub := epub r; pdf := pdf r |}.

Definition set_genre (v : cell) (r : BookRecord) : BookRecord :=
  {| author := author r; title := title r; website := website r;
     genre := v; description := description r; epub := epub r; pdf := pdf r |}.

Definition set_epub (v : cell) (r : BookRecord) : BookRecord :=
  {| author := author r; title := title r; website := website r;
     genre := genre r; description := description r; epub := v; pdf := pdf r |}.

Definition set_pdf (v : cell) (r : BookRecord) : BookRecord :=
  {| author := author r; title := title r; website := website r;
     genre := genre r; description := description r; epub := epub r;
     pdf := v |}.

(** The columns that only the download links of a detail page change,
    and the columns of the listing, agree in [r] and [r']. *)
Definition keeps_downloads (r r' : BookRecord) : Prop :=
  author r' = author r /\ title r' = title r /\ website r' = website r /\
  epub r' = epub r /\ pdf r' = pdf r.

(** The frame [df'] has the rows of [df], and differs from it at most in
    the description and the genre of the row [row]. *)
Definition frame_kept (row : nat) (df df' : list BookRecord) : Prop :=
  length df' = length df /\
  (forall j, j <> row -> df' !! j = df !! j) /\
  (forall r, df !! row = Some r ->
             exists r', df' !! row = Some r' /\ keeps_downloads r r').

(** ** Listing parser *)

Definition base_url : string := "https://www.lectulandia.co".

(** Attribute access or method call on the result of a query:
    [None.get], [None.text] and [None.find_all] raise [AttributeError]. *)
Definition deref {A : Type} (o : option A) : res A :=
  match o with
  | Some a => Ok a
  | None => Raise AttributeError
  end.

(** [sub in x] where [x] is the result of [a.get(..)]: the test raises
    [TypeError] when [x] is [None]. *)
Definition py_in (sub : string) (x : option string) : res bool :=
  match x with
  | Some s => Ok (contains sub s)
  | None => Raise TypeError
  end.

(** [try: body  except ...: handler]: the handler is chosen by the
    exception; [None] means that no [except] clause matches. *)
Definition try_except {A : Type} (body : res A)
    (handler : exn -> option (res A)) : res A :=
  match body with
  | Ok a => Ok a
  | Raise e =>
      match handler e with
      | Some h => h
      | None => Raise e
      end
  end.

(** One iteration of the loop of [get_author]:
<<
        try:
            if 'autor' in line.a.get('href'):
                authors.append(line.a.text)
        except AttributeError:
            authors.append(np.nan)
>>
    [line.a] is [None] when the element has no link. *)
Definition get_author_step (authors : list cell) (line : Subdetail)
  : res (list cell) :=
  try_except
    (a ← deref (sd_a line);
     is_author ← py_in "autor" (a_href a);
     if is_author : bool then Ok (authors ++ [Str (a_text a)])
     else Ok authors)
    (fun e => if is_AttributeError e then Some (Ok (authors ++ [NaN]))
              else None).

Fixpoint get_author_loop (authors : list cell) (lines : list Subdetail)
  : res (list cell) :=
  match lines with
  | [] => Ok authors
  | line :: lines' =>
      authors' ← get_author_step authors line;
      get_author_loop authors' lines'
  end.

Definition get_author (soup_element : Soup) : res (list cell) :=
  get_author_loop [] (subdetails soup_element).

(** The entry one author-attribution element adds to the author sequence,
    read off the description of the listing parser: the text of the
    nested link when its target contains the author marker, a null
    placeholder when there is no nested link, and nothing otherwise. *)
Definition author_entry (line : Subdetail) : option cell :=
  match sd_a line with
  | None => Some NaN
  | Some a =>
      match a_href a with
      | Some h => if contains "autor" h then Some (Str (a_text a)) else None
      | None => None
      end
  end.

(** Every nested link of an author-attribution element has a target. *)
Definition links_have_href (soup : Soup) : Prop :=
  Forall (fun line => forall a, sd_a line = Some a -> is_Some (a_href a))
         (subdetails soup).

Definition cell_of_option (o : option string) : cell :=
  match o with
  | Some s => Str s
  | None => PyNone
  end.

(** [base_url + line.get('href')]: adding [None] to a string raises
    [TypeError]. *)
Definition resolve (o : option string) : res string :=
  match o with
  | Some h => Ok (base_url +:+ h)
  | None => Raise TypeError
  end.

Fixpoint get_title_and_website_loop (titles : list cell)
    (websites : list string) (lines : list Anchor)
  : res (list cell * list string) :=
  match lines with
  | [] => Ok (titles, websites)
  | line :: lines' =>
      let titles' := titles ++ [cell_of_option (a_title line)] in
      w ← resolve (a_href line);
      get_title_and_website_loop titles' (websites ++ [w]) lines'
  end.

Definition get_title_and_website (soup_element : Soup)
  : res (list cell * list string) :=
  get_title_and_website_loop [] [] (title_links soup_element).

(** [pd.DataFrame(data)] on a dict of three lists: the lists are the
    columns, row [i] holds their [i]-th entries; lists of different
    lengths raise [ValueError]. *)
Fixpoint zip_rows (authors titles : list cell) (websites : list string)
  : list ListingRow :=
  match authors, titles, websites with
  | a :: authors', t :: titles', w :: websites' =>
      {| l_author := a; l_title := t; l_website := w |}
        :: zip_rows authors' titles' websites'
  | _, _, _ => []
  end.

Definition DataFrame (authors titles : list cell) (websites : list string)
  : res (list ListingRow) :=
  if (length authors =? length titles)%nat
     && (length titles =? length websites)%nat
  then Ok (zip_rows authors titles websites)
  else Raise ValueError.

(** Lines 63 to 69 of [scrape_books]: the frame of one listing page. *)
Definition page_frame (soup_object : Soup) : res (list ListingRow) :=
  authors ← get_author soup_object;
  tw1 ← get_title_and_website soup_object;
  tw2 ← get_title_and_website soup_object;
  DataFrame authors (fst tw1) (snd tw2).

(** ** Integers *)

(** The code points of a string, from its UTF-8 bytes: a byte below 128
    is a character, a byte below 224 begins a character of two bytes, a
    byte below 240 one of three bytes, any other one of four bytes.  (A
    cut-off sequence stands for no string of the program; it is read as
    the code point [-1].) *)
Fixpoint utf8_decode (s : string) : list Z :=
  match s with
  | EmptyString => []
  | String c1 s1 =>
      if byte c1 <? 128 then byte c1 :: utf8_decode s1
      else
        match s1 with
        | EmptyString => [-1]
        | String c2 s2 =>
            if byte c1 <? 224 then
              ((byte c1 - 192) * 64 + (byte c2 - 128)) :: utf8_decode s2
            else
              match s2 with
              | EmptyString => [-1]
              | String c3 s3 =>
                  if byte c1 <? 240 then
                    ((byte c1 - 224) * 4096 + (byte c2 - 128) * 64
                     + (byte c3 - 128)) :: utf8_decode s3
                  else
                    match s3 with
                    | EmptyString => [-1]
                    | String c4 s4 =>
                        ((byte c1 - 240) * 262144 + (byte c2 - 128) * 4096
                         + (byte c3 - 128) * 64 + (byte c4 - 128))
                          :: utf8_decode s4
                    end
              end
        end
  end.

(** [Py_UNICODE_ISSPACE]: the white space of Unicode. *)
Definition Py_UNICODE_ISSPACE (ch : Z) : bool :=
  ((9 <=? ch) && (ch <=? 13)) || ((28 <=? ch) && (ch <=? 32))
  || (ch =? 133) || (ch =? 160) || (ch =? 5760)
  || ((8192 <=? ch) && (ch <=? 8202))
  || (ch =? 8232) || (ch =? 8233) || (ch =? 8239) || (ch =? 8287)
  || (ch =? 12288).

(** The first code point of each run of the ten decimal digits of a
    script (Unicode 14, the data of CPython 3.11): the digit [d] of the
    run that starts at [z] is the code point [z + d]. *)
Definition decimal_runs : list Z :=
  [ 48; 1632; 1776; 1984; 2406; 2534; 2662; 2790; 2918; 3046; 3174; 3302;
    3430; 3558; 3664; 3792; 3872; 4160; 4240; 6112; 6160; 6470; 6608; 6784;
    6800; 6992; 7088; 7232; 7248; 42528; 43216; 43264; 43472; 43504; 43600;
    44016; 65296; 66720; 68912; 69734; 69872; 69942; 70096; 70384; 70736;
    70864; 71248; 71360; 71472; 71904; 72016; 72784; 73040; 73120; 92768;
    92864; 93008; 120782; 120792; 120802; 120812; 120822; 123200; 123632;
    125264; 130032 ].

(** [Py_UNICODE_TODECIMAL]: the value of a decimal digit, [None] for any
    other character. *)
Fixpoint decimal_in (runs : list Z) (ch : Z) : option Z :=
  match runs with
  | [] => None
  | z :: runs' =>
      if (z <=? ch) && (ch <? z + 10) then Some (ch - z)
      else decimal_in runs' ch
  end.

Definition Py_UNICODE_TODECIMAL (ch : Z) : option Z :=
  decimal_in decimal_runs ch.

(** One character of [_PyUnicode_TransformDecimalAndSpaceToASCII]: a
    character below 127 is kept, white space becomes a space, a decimal
    digit becomes its ASCII digit and anything else "?". *)
Definition to_ascii (ch : Z) : Z :=
  if ch <? 127 then ch
  else if Py_UNICODE_ISSPACE ch then 32
  else
    match Py_UNICODE_TODECIMAL ch with
    | Some d => 48 + d
    | None => 63
    end.

(** [Py_ISSPACE]: the blanks of the C locale. *)
Definition Py_ISSPACE (c : Z) : bool :=
  (c =? 32) || ((9 <=? c) && (c <=? 13)).

Fixpoint skip_spaces (l : list Z) : list Z :=
  match l with
  | c :: l' => if Py_ISSPACE c then skip_spaces l' else l
  | [] => []
  end.

(** The loop of [long_from_string_base] over the digits and underscores:
    the value read, the number of digits and the characters that follow,
    or [None] when two underscores meet or an underscore comes last.
    [after_underscore] tells whether the previous character was an
    underscore. *)
Fixpoint scan_digits (acc : Z) (digits : nat) (after_underscore : bool)
    (l : list Z) : option (Z * nat * list Z) :=
  match l with
  | c :: l' =>
      if (48 <=? c) && (c <=? 57) then
        scan_digits (10 * acc + (c - 48)) (S digits) false l'
      else if c =? 95 then
        if after_underscore then None
        else scan_digits acc digits true l'
      else if after_underscore then None else Some (acc, digits, l)
  | [] => if after_underscore then None else Some (acc, digits, [])
  end.

(** The default of [sys.get_int_max_str_digits()]. *)
Definition max_str_digits : nat := 4300.

(** The first character of [l] is [c]. *)
Definition head_is (c : Z) (l : list Z) : bool :=
  match l with
  | x :: _ => x =? c
  | [] => false
  end.

(** [PyLong_FromString] in base 10 on the characters [l]: blanks, a sign,
    digits with single underscores between them (none in front), blanks,
    and nothing else; more than [max_str_digits] digits are refused. *)
Definition long_from_string (l : list Z) : option Z :=
  let l1 := skip_spaces l in
  let negative := head_is 45 l1 in
  let l2 := if head_is 43 l1 || head_is 45 l1 then tail l1 else l1 in
  if head_is 95 l2 then None
  else
    match scan_digits 0 0 false l2 with
    | Some (n, digits, rest) =>
        match skip_spaces rest with
        | [] =>
            if (digits =? 0)%nat || (max_str_digits <? digits)%nat then None
            else Some (if negative then - n else n)
        | _ :: _ => None
        end
    | None => None
    end.

(** [int(s)] on a string: every failure is a [ValueError]. *)
Definition py_int (s : string) : res Z :=
  match long_from_string (to_ascii <$> utf8_decode s) with
  | Some n => Ok n
  | None => Raise ValueError
  end.

(** The characters [int] works on. *)
Definition codes (s : string) : list Z := to_ascii <$> utf8_decode s.

(** The value of the ASCII digits [ds] read after the value [acc]. *)
Definition digits_value (acc : Z) (ds : list Z) : Z :=
  fold_left (fun a c => 10 * a + (c - 48)) ds acc.

(** The text [s] with its dot separators removed, as the specification
    puts it: the characters of [s] other than ".", in their order. *)
Definition without_dots (s : string) : string :=
  string_of_list_ascii
    (filter (fun c => c <> "."%char) (list_ascii_of_string s)).

(** [range(lo, hi)] *)
Definition range (lo hi : Z) : list Z := seqZ lo (hi - lo).

(** [l[-2]] *)
Definition index_neg2 {A : Type} (l : list A) : res A :=
  match (length l), l !! (length l - 2)%nat with
  | S (S _), Some x => Ok x
  | _, _ => Raise IndexError
  end.

(** ** The world and the [io] monad *)

Inductive response : Type :=
| Fails (e : exn)     (* [requests.get] raises [e] *)
| Page (s : Soup).    (* the body of the answer, parsed *)

Record World : Type := {
  (* the URLs requested so far, oldest first *)
  log : list string;
  (* the frame [books_df] that [enrich_book_data] works on *)
  books_df : list BookRecord
}.

(** [None]: a loop of the model ran out of fuel. *)
Definition io (A : Type) : Type := World -> option (res A * World).

#[global] Instance io_ret : MRet io := fun A a w => Some (Ok a, w).
#[global] Instance io_bind : MBind io := fun A B f m w =>
  match m w with
  | Some (Ok a, w') => f a w'
  | Some (Raise e, w') => Some (Raise e, w')
  | None => None
  end.

Definition lift {A : Type} (r : res A) : io A := fun w => Some (r, w).

Definition out_of_fuel {A : Type} : io A := fun _ => None.

(** [try: body  except ...: handler] in [io]: the handler runs in the
    world the body left. *)
Definition io_try {A : Type} (body : io A) (handler : exn -> option (io A))
  : io A := fun w =>
  match body w with
  | Some (Raise e, w') =>
      match handler e with
      | Some h => h w'
      | None => Some (Raise e, w')
      end
  | r => r
  end.

(** [for x in l: a = body(a, x)] *)
Fixpoint for_each {A B : Type} (body : A -> B -> io A) (a : A) (l : list B)
  : io A :=
  match l with
  | [] => mret a
  | x :: l' => a' ← body a x; for_each body a' l'
  end.

(** [df.loc[row, 'website']]: a label that is not in the index raises
    [KeyError]. *)
Definition loc_website (row : nat) : io string := fun w =>
  match books_df w !! row with
  | Some r => Some (Ok (website r), w)
  | None => Some (Raise KeyError, w)
  end.

(** The world after the row [row] of the frame was updated with [f]. *)
Definition updated (w : World) (row : nat) (f : BookRecord -> BookRecord)
  : World :=
  {| log := log w; books_df := alter f row (books_df w) |}.

(** [df.loc[row, column] = v], with [f] the update of the column.  Every
    assignment of the script follows a successful [loc_website] on the
    same label, so the label is in the index (pandas would add a row for
    a label that is not; [alter] leaves the frame as it is). *)
Definition loc_set (row : nat) (f : BookRecord -> BookRecord) : io unit :=
  fun w => Some (Ok tt, updated w row f).

Definition set_books_df (df : list BookRecord) : io unit :=
  fun w => Some (Ok tt, {| log := log w; books_df := df |}).

Definition get_books_df : io (list BookRecord) :=
  fun w => Some (Ok (books_df w), w).

(** The world after the requests [urls] were sent. *)
Definition logged (w : World) (urls : list string) : World :=
  {| log := log w ++ urls; books_df := books_df w |}.

(** ** The scraper *)

Section Scraper.

(** The answer to the [n]-th request of the run, sent to [url]. *)
Variable net : nat -> string -> response.

(** [BeautifulSoup(requests.get(url, timeout=50).content, 'html.parser')] *)
Definition requests_get (url : string) : io Soup := fun w =>
  match net (length (log w)) url with
  | Fails e => Some (Raise e, logged w [url])
  | Page s => Some (Ok s, logged w [url])
  end.

(** The next [k] requests, all sent to [url], time out. *)
Definition timeouts (w : World) (url : string) (k : nat) : Prop :=
  forall i, (i < k)%nat -> net (length (log w) + i) url = Fails Timeout.

(** [f'https://www.lectulandia.co/book/page/{page}/'] *)
Definition page_url (page : Z) : string :=
  "https://www.lectulandia.co/book/page/" +:+ pretty page +:+ "/".

(** The [while] loop of [scrape_books] (lines 48 to 58).  The flag
    [success] is not kept apart: [soup_object] is [Some] exactly when
    [success] is [True], as both are assigned together in the [try]
    block. *)
Fixpoint fetch_loop (fuel : nat) (url : string) (attempts : nat)
    (soup_object : option Soup) : io (option Soup) :=
  match fuel with
  | O => out_of_fuel
  | S fuel' =>
      let success := bool_decide (is_Some soup_object) in
      if (attempts <? 5)%nat && negb success
      then
        st ← io_try
               (s ← requests_get url; mret (attempts, Some s))
               (fun e => if is_Timeout e
                         then Some (mret (S attempts, soup_object))
                         else None);
        fetch_loop fuel' url (fst st) (snd st)
      else mret soup_object
  end.

(** The requests of a run over [pages] in which [k] requests are sent
    for the page at the same position in [ks]. *)
Definition page_requests (pages : list Z) (ks : list nat) : list string :=
  concat (zip_with (fun p k => replicate k (page_url p)) pages ks).

(** The body of the [for] loop of [scrape_books]: a page that could not
    be fetched is skipped, the rows of a fetched page are appended
    ([pd.concat] with [ignore_index=True]). *)
Definition scrape_page (df : list ListingRow) (page : Z)
  : io (list ListingRow) :=
  soup ← fetch_loop 6 (page_url page) 0 None;
  match soup with
  | None => mret df
  | Some soup_object =>
      page_df ← lift (page_frame soup_object);
      mret (df ++ page_df)
  end.

Definition scrape_books (pages : Z) : io (list ListingRow) :=
  for_each scrape_page [] (range 1 (pages + 1)).

(** Lines 95 to 99 of [get_book_details], for one link. *)
Definition classify_link (row : nat) (_ : unit) (link : Anchor) : io unit :=
  if contains "epub" (lower (a_text link)) then
    u ← lift (resolve (a_href link));
    loc_set row (set_epub (Str u))
  else if contains "pdf" (lower (a_text link)) then
    u ← lift (resolve (a_href link));
    loc_set row (set_pdf (Str u))
  else mret tt.

(** Lines 88 to 99 of [get_book_details]: the fields read from the
    detail page. *)
Definition parse_details (row : nat) (site_soup : Soup) : io unit :=
  d ← lift (deref (sinopsis site_soup));
  loc_set row (set_description (Str (strip d)));;
  g ← lift (deref (genero site_soup));
  loc_set row (set_genre (Str (join " / " (a_text <$> g))));;
  download_links ← lift (deref (downloadContainer site_soup));
  for_each (classify_link row) tt download_links.

(** The [try] block of [get_book_details] (lines 85 to 101). *)
Definition details_attempt (row : nat) : io unit :=
  url ← loc_website row;
  site_soup ← requests_get url;
  parse_details row site_soup.

Definition max_attempts : nat := 5.

(** The [while] loop of [get_book_details]. *)
Fixpoint details_loop (fuel : nat) (row : nat) (attempts : nat)
    (success : bool) : io unit :=
  match fuel with
  | O => out_of_fuel
  | S fuel' =>
      if (attempts <? max_attempts)%nat && negb success then
        st ← io_try
               (details_attempt row;; mret (attempts, true))
               (fun e => if is_RequestException e
                         then Some (mret (S attempts, success))
                         else if is_AttributeError e
                         then Some (mret (S attempts, success))
                         else None);
        details_loop fuel' row (fst st) (snd st)
      else mret tt
  end.

Definition get_book_details (row : nat) : io unit :=
  details_loop (S max_attempts) row 0 false.

(** An attempt that fails with an exception the loop catches; the
    result is the world the attempt leaves. *)
Definition attempt_fails (row : nat) (w : World) : option World :=
  match details_attempt row w with
  | Some (Raise e, w') =>
      if is_RequestException e || is_AttributeError e then Some w'
      else None
  | _ => None
  end.

(** [k] failed attempts in a row. *)
Fixpoint failed_attempts (row : nat) (k : nat) (w : World)
  : option World :=
  match k with
  | O => Some w
  | S k' => w' ← attempt_fails row w; failed_attempts row k' w'
  end.

(** The next [k] requests, all sent to [url], fail with a network error
    or give a page without the description container. *)
Definition fails_early (r : response) : bool :=
  match r with
  | Fails e => is_RequestException e
  | Page s => match sinopsis s with None => true | Some _ => false end
  end.

Definition early_failures (w : World) (url : string) (k : nat) : Prop :=
  forall i, (i < k)%nat ->
            fails_early (net (length (log w) + i) url) = true.

(** [for index, _ in df.iterrows(): get_book_details(index, df)]: the
    index of the frame is [0 .. len(df) - 1]. *)
Definition enrich_book_data : io unit :=
  df ← get_books_df;
  for_each (fun _ index => get_book_details index) tt (seq 0 (length df)).

Definition INITIAL_URL : string := "https://www.lectulandia.co/book/".

(** Lines 123 to 129: the number of pages. *)
Definition total_pages_of (soup : Soup) : res Z :=
  last_page_link ← index_neg2 (page_numbers soup);
  py_int (remove_dots (a_text last_page_link)).

(** [books_df[column] = np.nan] for the four new columns. *)
Definition add_placeholders (r : ListingRow) : BookRecord :=
  {| author := l_author r; title := l_title r; website := l_website r;
     genre := NaN; description := NaN; epub := NaN; pdf := NaN |}.

(** Lines 123 to 133: the listing is scraped. *)
Definition listing_phase : io (list ListingRow) :=
  soup ← requests_get INITIAL_URL;
  total_pages ← lift (total_pages_of soup);
  scrape_books total_pages.

(** The main block. *)
Definition main : io unit :=
  books ← listing_phase;
  set_books_df (add_placeholders <$> books);;
  enrich_book_data.

End Scraper.

(** ** Relations between frames *)

(** The listing columns agree in [r] and [r']. *)
Definition same_listing (r r' : BookRecord) : Prop :=
  author r' = author r /\ title r' = title r /\ website r' = website r.

(** The rows agree in all columns but epub and pdf. *)
Definition same_details (r r' : BookRecord) : Prop :=
  same_listing r r' /\
  description r' = description r /\ genre r' = genre r.

(** [df'] has as many rows as [df], its rows other than [row] are those
    of [df], and its row [row] is related to that of [df] by [P]. *)
Definition row_kept (P : BookRecord -> BookRecord -> Prop) (row : nat)
    (df df' : list BookRecord) : Prop :=
  length df' = length df /\
  (forall j, j <> row -> df' !! j = df !! j) /\
  (forall r, df !! row = Some r -> exists r', df' !! row = Some r' /\ P r r').

(** A link that the loop over the download links stores: its text
    contains "epub" or "pdf", whatever the case of the letters. *)
Definition is_download (link : Anchor) : bool :=
  contains "epub" (lower (a_text link))
  || contains "pdf" (lower (a_text link)).

(** A link that is stored and has no target. *)
Definition broken_download (link : Anchor) : Prop :=
  is_download link = true /\ a_href link = None.

(** The requests of an enrichment in which [k] requests are sent for the
    row whose website is at the same position as [k] in [ks]. *)
Definition row_requests (websites : list string) (ks : list nat)
  : list string :=
  concat (zip_with (fun u k => replicate k u) websites ks).

(** ** Sample pages and networks *)

Module Sample.

Definition anchor (h t : string) : Anchor :=
  {| a_href := Some h; a_title := Some t; a_text := t |}.

Definition by_author (h t : string) : Subdetail :=
  {| sd_a := Some (anchor h t) |}.

(** A listing page with three books; its pagination says two pages. *)
Definition listing : Soup :=
  {| subdetails :=
       [ by_author "/autor/miguel-de-cervantes" "Miguel de Cervantes";
         {| sd_a := None |};
         by_author "/autor/rosalia-de-castro" "Rosalia de Castro" ];
     title_links := [ anchor "/book/don-quijote" "Don Quijote";
                      anchor "/book/lazarillo" "Lazarillo de Tormes";
                      anchor "/book/cantares" "Cantares gallegos" ];
     page_numbers := [ anchor "/book/page/1/" "1";
                       anchor "/book/page/2/" "2";
                       anchor "/book/page/2/" "Siguiente" ];
     sinopsis := None; genero := None; downloadContainer := None |}.

(** A listing page whose only attribution element links to a genre. *)
Definition listing_genre_link : Soup :=
  {| subdetails := [ by_author "/genero/novela" "Novela" ];
     title_links := [ anchor "/book/don-quijote" "Don Quijote" ];
     page_numbers := [];
     sinopsis := None; genero := None; downloadContainer := None |}.

(** A detail page with a description and no genre container. *)
Definition detail_without_genre : Soup :=
  {| subdetails := []; title_links := []; page_numbers := [];
     sinopsis := Some " Un hidalgo pierde el juicio. ";
     genero := None;
     downloadContainer := Some [ anchor "/download/1.epub" "Descargar EPUB" ]
  |}.

(** A detail page with a description and genres, and no download
    container. *)
Definition detail_without_downloads : Soup :=
  {| subdetails := []; title_links := []; page_numbers := [];
     sinopsis := Some " Un hidalgo pierde el juicio. ";
     genero := Some [ anchor "/genero/novela" "Novela";
                      anchor "/genero/aventuras" "Aventuras" ];
     downloadContainer := None |}.

Definition quijote : BookRecord :=
  {| author := Str "Miguel de Cervantes"; title := Str "Don Quijote";
     website := "https://www.lectulandia.co/book/don-quijote";
     genre := NaN; description := NaN; epub := NaN; pdf := NaN |}.

(** The rows of [listing]. *)
Definition listing_rows : list ListingRow :=
  [ {| l_author := Str "Miguel de Cervantes"; l_title := Str "Don Quijote";
       l_website := "https://www.lectulandia.co/book/don-quijote" |};
    {| l_author := NaN; l_title := Str "Lazarillo de Tormes";
       l_website := "https://www.lectulandia.co/book/lazarillo" |};
    {| l_author := Str "Rosalia de Castro"; l_title := Str "Cantares gallegos";
       l_website := "https://www.lectulandia.co/book/cantares" |} ].

Definition start : World := {| log := []; books_df := [] |}.

(** The world after the request of the first listing page. *)
Definition started : World := logged start [INITIAL_URL].

Definition enriching : World := {| log := []; books_df := [quijote] |}.

(** The world of the enrichment after three earlier requests. *)
Definition enriching_later : World :=
  {| log := [INITIAL_URL; page_url 1; page_url 1];
     books_df := [quijote] |}.

(** The first request is answered with the listing page, every later
    one times out. *)
Definition net_listing_then_timeouts (n : nat) (url : string) : response :=
  match n with
  | O => Page listing
  | S _ => Fails Timeout
  end.

Definition net_timeouts (n : nat) (url : string) : response :=
  Fails Timeout.

(** The first request is answered with the listing page, the next two
    time out, and the connection is refused from then on. *)
Definition net_refused (n : nat) (url : string) : response :=
  match n with
  | O => Page listing
  | 1%nat | 2%nat => Fails Timeout
  | _ => Fails ConnectionError
  end.

Definition net_without_genre (n : nat) (url : string) : response :=
  Page detail_without_genre.

Definition net_without_downloads (n : nat) (url : string) : response :=
  Page detail_without_downloads.

End Sample.

(** The string of the bytes [l]. *)
Definition of_bytes (l : list Z) : string :=
  fold_right (fun b s => String (ascii_of_nat (Z.to_nat b)) s) "" l.

(** ** Sample detail pages *)

Module SampleDetail.

(** A detail page with all three containers. *)
Definition full : Soup :=
  {| subdetails := []; title_links := []; page_numbers := [];
     sinopsis := Some " Un hidalgo pierde el juicio. ";
     genero := Some [ Sample.anchor "/genero/novela" "Novela";
                      Sample.anchor "/genero/aventuras" "Aventuras" ];
     downloadContainer :=
       Some [ Sample.anchor "/download/1.epub" "Descargar EPUB";
              Sample.anchor "/download/1.pdf" "Descargar PDF";
              Sample.anchor "/foro" "Foro" ] |}.

(** A detail page whose PDF link has no target. *)
Definition broken : Soup :=
  {| subdetails := []; title_links := []; page_numbers := [];
     sinopsis := Some " Un hidalgo pierde el juicio. ";
     genero := Some [ Sample.anchor "/genero/novela" "Novela" ];
     downloadContainer :=
       Some [ Sample.anchor "/download/1.epub" "Descargar EPUB";
              {| a_href := None; a_title := None;
                 a_text := "Descargar PDF" |} ] |}.

Definition net_full (n : nat) (url : string) : response := Page full.

Definition net_broken (n : nat) (url : string) : response := Page broken.

(** Two timeouts, then the full page. *)
Definition net_full_at_third (n : nat) (url : string) : response :=
  match n with
  | 0%nat | 1%nat => Fails Timeout
  | _ => Page full
  end.

(** The first listing page and page 1 are answered with the listing
    page, every later request times out. *)
Definition net_two_listings (n : nat) (url : string) : response :=
  match n with
  | 0%nat | 1%nat => Page Sample.listing
  | _ => Fails Timeout
  end.

(** A first listing page with a single pagination link. *)
Definition one_link : Soup :=
  {| subdetails := []; title_links := [];
     page_numbers := [ Sample.anchor "/book/page/1/" "1" ];
     sinopsis := None; genero := None; downloadContainer := None |}.

(** A frame of two books. *)
Definition lazarillo : BookRecord :=
  {| author := NaN; title := Str "Lazarillo de Tormes";
     website := "https://www.lectulandia.co/book/lazarillo";
     genre := NaN; description := NaN; epub := NaN; pdf := NaN |}.

Definition two_books : World :=
  {| log := []; books_df := [Sample.quijote; lazarillo] |}.

End SampleDetail.

(** * Properties *)

(** ** Strings *)

Lemma prefix_spec (p s : string) :
  String.prefix p s = true <-> exists post, s = p +:+ post.
Proof.
  revert s; induction p as [|c p IH]; intros s.
  - destruct s; simpl; split; eauto.
  - destruct s as [|c' s]; simpl.
    + split; [done|]. by intros [post ?].
    + destruct (ascii_dec c c') as [->|Hne].
      * rewrite IH. split; intros [post Hs]; exists post.
        -- by rewrite Hs.
        -- by injection Hs.
      * split; [done|]. intros [post Hs]. by injection Hs as -> _.
Qed.

(** [contains] is the substring test. *)
Lemma contains_spec (sub s : string) :
  contains sub s = true <-> exists pre post, s = pre +:+ sub +:+ post.
Proof.
  induction s as [|c s IH]; cbn [contains].
  - rewrite orb_false_r, prefix_spec. split.
    + intros [post ->]. by exists "", post.
    + intros [[|c pre] [post H]]; [by exists post|done].
  - rewrite orb_true_iff, prefix_spec, IH. split.
    + intros [[post ->]|(pre & post & ->)]; [by exists "", post|].
      by exists (String c pre), post.
    + intros [[|c' pre] [post H]]; [left; by exists post|].
      right. injection H as _ ->. by exists pre, post.
Qed.

(** ** The [io] monad *)

Lemma logged_logged (w : World) (l1 l2 : list string) :
  logged (logged w l1) l2 = logged w (l1 ++ l2).
Proof. unfold logged; simpl. by rewrite <- app_assoc. Qed.

Lemma logged_nil (w : World) : logged w [] = w.
Proof. destruct w; unfold logged; simpl. by rewrite app_nil_r. Qed.

Lemma io_bind_ok {A B : Type} (m : io A) (f : A -> io B) w a w' :
  m w = Some (Ok a, w') -> (m ≫= f) w = f a w'.
Proof. unfold mbind, io_bind. by intros ->. Qed.

Lemma io_bind_raise {A B : Type} (m : io A) (f : A -> io B) w e w' :
  m w = Some (Raise e, w') -> (m ≫= f) w = Some (Raise e, w').
Proof. unfold mbind, io_bind. by intros ->. Qed.

Lemma for_each_app {A B : Type} (body : A -> B -> io A) a l1 l2 w a' w' :
  for_each body a l1 w = Some (Ok a', w') ->
  for_each body a (l1 ++ l2) w = for_each body a' l2 w'.
Proof.
  revert a w; induction l1 as [|x l1 IH]; intros a w; simpl.
  - unfold mret, io_ret. by intros [= -> ->].
  - unfold mbind, io_bind.
    destruct (body a x w) as [[[a1|e] w1]|]; [|done..].
    apply IH.
Qed.

Lemma for_each_app_raise {A B : Type} (body : A -> B -> io A) a l1 l2 w e w' :
  for_each body a l1 w = Some (Raise e, w') ->
  for_each body a (l1 ++ l2) w = Some (Raise e, w').
Proof.
  revert a w; induction l1 as [|x l1 IH]; intros a w; simpl; [done|].
  unfold mbind, io_bind.
  destruct (body a x w) as [[[a1|e1] w1]|]; [|done..].
  apply IH.
Qed.

(** ** The retry loop of the listing path *)

Section fetch_loop.
Variable net : nat -> string -> response.

Lemma fetch_loop_timeout fuel url a w :
  (a < 5)%nat ->
  net (length (log w)) url = Fails Timeout ->
  fetch_loop net (S fuel) url a None w
  = fetch_loop net fuel url (S a) None (logged w [url]).
Proof.
  intros Ha Hnet. simpl.
  apply Nat.ltb_lt in Ha as ->. simpl.
  unfold mbind, io_bind, mret, io_ret, io_try, requests_get; simpl.
  by rewrite Hnet.
Qed.

Lemma fetch_loop_page fuel url a w s :
  (a < 5)%nat ->
  net (length (log w)) url = Page s ->
  fetch_loop net (S (S fuel)) url a None w
  = Some (Ok (Some s), logged w [url]).
Proof.
  intros Ha Hnet. cbn [fetch_loop].
  apply Nat.ltb_lt in Ha as ->. simpl.
  unfold mbind, io_bind, mret, io_ret, io_try, requests_get; simpl.
  rewrite Hnet; simpl. by rewrite andb_false_r.
Qed.

Lemma fetch_loop_error fuel url a w e :
  (a < 5)%nat ->
  net (length (log w)) url = Fails e ->
  is_Timeout e = false ->
  fetch_loop net (S fuel) url a None w = Some (Raise e, logged w [url]).
Proof.
  intros Ha Hnet He. simpl.
  apply Nat.ltb_lt in Ha as ->. simpl.
  unfold mbind, io_bind, mret, io_ret, io_try, requests_get; simpl.
  by rewrite Hnet, He.
Qed.

Lemma fetch_loop_exit fuel url w :
  fetch_loop net (S fuel) url 5 None w = Some (Ok None, w).
Proof. done. Qed.

(** [k] timeouts in a row are [k] turns of the loop. *)
Lemma fetch_loop_timeouts k fuel url a w :
  (a + k <= 5)%nat ->
  (forall i, (i < k)%nat ->
             net (length (log w) + i) url = Fails Timeout) ->
  fetch_loop net (k + fuel) url a None w
  = fetch_loop net fuel url (a + k) None (logged w (replicate k url)).
Proof.
  revert a w; induction k as [|k IH]; intros a w Ha Hnet.
  - by rewrite Nat.add_0_r, logged_nil.
  - change (S k + fuel)%nat with (S (k + fuel)).
    rewrite fetch_loop_timeout; [|lia|].
    2:{ specialize (Hnet 0%nat). rewrite Nat.add_0_r in Hnet.
        apply Hnet; lia. }
    rewrite IH; [|lia|].
    + rewrite logged_logged. by replace (S a + k)%nat with (a + S k)%nat by lia.
    + intros i Hi. simpl. rewrite length_app; simpl.
      replace (length (log w) + 1 + i)%nat
        with (length (log w) + S i)%nat by lia.
      apply Hnet; lia.
Qed.

(** The loop never runs out of the fuel its caller gives. *)
Lemma fetch_loop_total fuel url a w :
  (6 <= S fuel + a)%nat ->
  is_Some (fetch_loop net (S fuel) url a None w).
Proof.
  revert a w; induction fuel as [|fuel IH]; intros a w Hf.
  - simpl. replace (a <? 5)%nat with false; [done|].
    symmetry. apply Nat.ltb_ge. lia.
  - destruct (decide (a < 5)%nat) as [Ha|Ha].
    + destruct (net (length (log w)) url) as [e|s] eqn:Hnet.
      * destruct (is_Timeout e) eqn:He.
        -- destruct e; try done.
           rewrite fetch_loop_timeout by done. apply IH; lia.
        -- by rewrite (fetch_loop_error _ _ _ _ e).
      * by rewrite (fetch_loop_page _ _ _ _ s).
    + cbn [fetch_loop]. replace (a <? 5)%nat with false; [done|].
      symmetry. apply Nat.ltb_ge. lia.
Qed.

End fetch_loop.

(** ** Ranges *)

Lemma range_cons (lo hi : Z) :
  lo < hi -> range lo hi = lo :: range (lo + 1) hi.
Proof.
  intros H. unfold range. rewrite seqZ_cons by lia.
  do 2 f_equal; lia.
Qed.

Lemma range_nil (lo hi : Z) : hi <= lo -> range lo hi = [].
Proof. intros H. unfold range. apply seqZ_nil. lia. Qed.

(** The pages before [p], [p] itself, and the pages after it. *)
Lemma range_split (lo p hi : Z) :
  lo <= p < hi -> range lo hi = range lo p ++ p :: range (p + 1) hi.
Proof.
  intros H. rewrite <- range_cons by lia. unfold range.
  replace (hi - lo) with ((p - lo) + (hi - p)) by lia.
  rewrite seqZ_app by lia. do 2 f_equal. lia.
Qed.

(** ** One listing page *)

Section scrape_page.
Variable net : nat -> string -> response.

Lemma scrape_page_skipped df page w :
  timeouts net w (page_url page) 5 ->
  scrape_page net df page w
  = Some (Ok df, logged w (replicate 5 (page_url page))).
Proof.
  intros Hnet. unfold scrape_page.
  erewrite io_bind_ok; [|by rewrite (fetch_loop_timeouts net 5 1 _ 0 w)].
  done.
Qed.

Lemma scrape_page_fetched df page w k s :
  (k < 5)%nat ->
  timeouts net w (page_url page) k ->
  net (length (log w) + k) (page_url page) = Page s ->
  scrape_page net df page w
  = Some (match page_frame s with
          | Ok page_df => Ok (df ++ page_df)
          | Raise e => Raise e
          end, logged w (replicate (S k) (page_url page))).
Proof.
  intros Hk Hto Hnet. unfold scrape_page.
  erewrite io_bind_ok.
  2:{ replace 6%nat with (k + S (S (4 - k)))%nat by lia.
      rewrite fetch_loop_timeouts; [|lia|done].
      apply fetch_loop_page; [lia|].
      simpl. by rewrite length_app, length_replicate. }
  rewrite logged_logged, <- replicate_cons_app.
  unfold mbind, io_bind, lift, mret, io_ret.
  by destruct (page_frame s).
Qed.

Lemma scrape_page_error df page w k e :
  (k < 5)%nat ->
  timeouts net w (page_url page) k ->
  net (length (log w) + k) (page_url page) = Fails e ->
  is_Timeout e = false ->
  scrape_page net df page w
  = Some (Raise e, logged w (replicate (S k) (page_url page))).
Proof.
  intros Hk Hto Hnet He. unfold scrape_page.
  apply io_bind_raise.
  replace 6%nat with (k + S (5 - k))%nat by lia.
  rewrite fetch_loop_timeouts; [|lia|done].
  change (replicate (S k) (page_url page))
    with (page_url page :: replicate k (page_url page)).
  rewrite replicate_cons_app, <- logged_logged.
  apply fetch_loop_error; [lia| |done].
  simpl. by rewrite length_app, length_replicate.
Qed.

(** C1.  A listing page whose fetch times out on five attempts in a row
    adds no row: when the pages before [p] left the table [df], the run
    goes on with page [p + 1] and the same table [df], after five
    requests of the URL of page [p]. *)
Theorem scrape_books_skips_timed_out_page pages p w0 df w :
  1 <= p <= pages ->
  for_each (scrape_page net) [] (range 1 p) w0 = Some (Ok df, w) ->
  timeouts net w (page_url p) 5 ->
  scrape_page net df p w
  = Some (Ok df, logged w (replicate 5 (page_url p))) /\
  scrape_books net pages w0
  = for_each (scrape_page net) df (range (p + 1) (pages + 1))
      (logged w (replicate 5 (page_url p))).
Proof.
  intros Hp Hbefore Hto.
  pose proof (scrape_page_skipped df p w Hto) as Hskip.
  split; [done|].
  unfold scrape_books. rewrite (range_split 1 p) by lia.
  rewrite (for_each_app _ _ _ _ _ _ _ Hbefore).
  cbn [for_each]. by erewrite io_bind_ok.
Qed.

End scrape_page.

(** ** The frame of one page *)



Lemma get_title_and_website_loop_spec lines titles websites ts ws :
  get_title_and_website_loop titles websites lines = Ok (ts, ws) ->
  ts = titles ++ (cell_of_option ∘ a_title <$> lines) /\
  exists ws', ws = websites ++ ws' /\
    Forall2 (fun line u => exists h, a_href line = Some h /\ u = base_url +:+ h)
      lines ws'.
Proof.
  revert titles websites; induction lines as [|line lines IH];
    intros titles websites; simpl.
  - intros [= <- <-]. rewrite app_nil_r. split; [done|].
    exists []. by rewrite app_nil_r.
  - destruct (a_href line) as [h|] eqn:Hh; simpl; [|done].
    intros H. apply IH in H as [-> (ws' & -> & Hall)].
    rewrite <- !app_assoc. split; [done|].
    exists ((base_url +:+ h) :: ws'). split; [done|].
    constructor; [by exists h|done].
Qed.

(** What [get_title_and_website] returns for the [i]-th title link: its
    [title] attribute and its [href] after the base URL. *)
Lemma get_title_and_website_lookup soup titles websites i line :
  get_title_and_website soup = Ok (titles, websites) ->
  title_links soup !! i = Some line ->
  titles !! i = Some (cell_of_option (a_title line)) /\
  exists h, a_href line = Some h /\ websites !! i = Some (base_url +:+ h).
Proof.
  intros H Hi. apply get_title_and_website_loop_spec in H
    as [-> (ws' & -> & Hall)]; simpl.
  split; [by rewrite list_lookup_fmap, Hi|].
  destruct (Forall2_lookup_l _ _ _ _ _ Hall Hi) as (u & Hu & h & Hh & ->).
  by exists h.
Qed.

Lemma get_title_and_website_length soup titles websites :
  get_title_and_website soup = Ok (titles, websites) ->
  length titles = length (title_links soup) /\
  length websites = length (title_links soup).
Proof.
  intros H. apply get_title_and_website_loop_spec in H
    as [-> (ws' & -> & Hall)]; simpl.
  rewrite length_fmap. split; [done|]. symmetry. by eapply Forall2_length.
Qed.



(** ** The author extractor *)

Lemma get_author_step_entry authors line :
  (forall a, sd_a line = Some a -> is_Some (a_href a)) ->
  get_author_step authors line
  = Ok (authors ++ option_list (author_entry line)).
Proof.
  intros Hhref. unfold get_author_step, author_entry.
  destruct (sd_a line) as [a|]; simpl; [|done].
  destruct (Hhref a eq_refl) as [h ->]; simpl.
  destruct (contains "autor" h); simpl; [done|by rewrite app_nil_r].
Qed.

Lemma get_author_loop_entries authors lines :
  Forall (fun line => forall a, sd_a line = Some a -> is_Some (a_href a))
         lines ->
  get_author_loop authors lines = Ok (authors ++ omap author_entry lines).
Proof.
  intros Hall; revert authors.
  induction Hall as [|line lines Hline _ IH]; intros authors; simpl.
  - by rewrite app_nil_r.
  - rewrite get_author_step_entry by done; simpl.
    rewrite IH, <- app_assoc. by destruct (author_entry line).
Qed.

Lemma omap_length_le {A B : Type} (f : A -> option B) (l : list A) :
  (length (omap f l) <= length l)%nat.
Proof.
  induction l as [|x l IH]; [done|].
  change (omap f (x :: l))
    with (match f x with Some y => y :: omap f l | None => omap f l end).
  destruct (f x); simpl; lia.
Qed.

(** ** The retry loop of the detail path *)

Section details_loop.
Variable net : nat -> string -> response.

Lemma details_loop_caught fuel row a w e w' :
  (a < 5)%nat ->
  details_attempt net row w = Some (Raise e, w') ->
  is_RequestException e || is_AttributeError e = true ->
  details_loop net (S fuel) row a false w
  = details_loop net fuel row (S a) false w'.
Proof.
  intros Ha Hatt He. cbn [details_loop]. unfold max_attempts.
  apply Nat.ltb_lt in Ha as ->. cbn [andb negb].
  unfold mbind at 1, io_bind, io_try.
  unfold mbind at 1, io_bind. rewrite Hatt.
  apply orb_true_iff in He as [->|He]; [done|].
  rewrite He. by destruct (is_RequestException e).
Qed.

Lemma details_loop_done fuel row a w w' :
  (a < 5)%nat ->
  details_attempt net row w = Some (Ok tt, w') ->
  details_loop net (S (S fuel)) row a false w = Some (Ok tt, w').
Proof.
  intros Ha Hatt. cbn [details_loop]. unfold max_attempts.
  apply Nat.ltb_lt in Ha as ->. cbn [andb negb].
  unfold mbind at 1, io_bind, io_try.
  unfold mbind at 1, io_bind. rewrite Hatt. simpl.
  by rewrite andb_false_r.
Qed.

Lemma details_loop_uncaught fuel row a w e w' :
  (a < 5)%nat ->
  details_attempt net row w = Some (Raise e, w') ->
  is_RequestException e || is_AttributeError e = false ->
  details_loop net (S fuel) row a false w = Some (Raise e, w').
Proof.
  intros Ha Hatt He. cbn [details_loop]. unfold max_attempts.
  apply Nat.ltb_lt in Ha as ->. cbn [andb negb].
  unfold mbind at 1, io_bind, io_try.
  unfold mbind at 1, io_bind. rewrite Hatt.
  apply orb_false_iff in He as [-> ->]. done.
Qed.

Lemma details_loop_exit fuel row w :
  details_loop net (S fuel) row 5 false w = Some (Ok tt, w).
Proof. done. Qed.

Lemma attempt_fails_inv row w w' :
  attempt_fails net row w = Some w' ->
  exists e, details_attempt net row w = Some (Raise e, w') /\
            is_RequestException e || is_AttributeError e = true.
Proof.
  unfold attempt_fails.
  destruct (details_attempt net row w) as [[[[]|e] w1]|]; try done.
  destruct (is_RequestException e || is_AttributeError e) eqn:He;
    [|done].
  intros [= ->]. by exists e.
Qed.

(** [k] failed attempts are [k] turns of the loop. *)
Lemma details_loop_failed k fuel row a w w' :
  (a + k <= 5)%nat ->
  failed_attempts net row k w = Some w' ->
  details_loop net (k + fuel) row a false w
  = details_loop net fuel row (a + k) false w'.
Proof.
  revert a w; induction k as [|k IH]; intros a w Ha;
    cbn [failed_attempts].
  - intros [= ->]. by rewrite Nat.add_0_r.
  - intros Hk.
    destruct (attempt_fails net row w) as [w1|] eqn:H1; [|done].
    change (failed_attempts net row k w1 = Some w') in Hk.
    apply attempt_fails_inv in H1 as (e & Hatt & He).
    change (S k + fuel)%nat with (S (k + fuel)).
    rewrite (details_loop_caught _ _ _ _ e w1) by (done || lia).
    rewrite (IH (S a) w1) by (done || lia).
    by replace (S a + k)%nat with (a + S k)%nat by lia.
Qed.

Lemma get_book_details_exhausted row w w' :
  failed_attempts net row 5 w = Some w' ->
  get_book_details net row w = Some (Ok tt, w').
Proof.
  intros H. unfold get_book_details, max_attempts.
  change 6%nat with (5 + 1)%nat.
  by rewrite (details_loop_failed 5 1 row 0 w w').
Qed.

Lemma classify_link_cases row link w :
  classify_link row tt link w = Some (Ok tt, w) \/
  (exists f, classify_link row tt link w = Some (Ok tt, updated w row f)) \/
  classify_link row tt link w = Some (Raise TypeError, w).
Proof.
  unfold classify_link, mbind, io_bind, lift, loc_set.
  destruct (contains "epub" (lower (a_text link))).
  { destruct (a_href link); simpl; eauto. }
  destruct (contains "pdf" (lower (a_text link))).
  { destruct (a_href link); simpl; eauto. }
  by left.
Qed.

(** The links of the download container raise nothing but [TypeError]
    and send no request. *)
Lemma for_each_classify_cases row links w :
  exists w',
    (for_each (classify_link row) tt links w = Some (Ok tt, w') \/
     for_each (classify_link row) tt links w = Some (Raise TypeError, w')) /\
    log w' = log w /\ length (books_df w') = length (books_df w).
Proof.
  revert w; induction links as [|link links IH]; intros w.
  - exists w. by repeat split; [left|..].
  - cbn [for_each]. unfold mbind, io_bind.
    destruct (classify_link_cases row link w) as [->|[[f ->]| ->]].
    + apply IH.
    + destruct (IH (updated w row f)) as (w' & Hw' & Hlog & Hlen).
      exists w'. split; [done|]. split; [done|].
      rewrite Hlen. unfold updated; simpl. by rewrite length_alter.
    + exists w. by repeat split; [right|..].
Qed.

Lemma parse_details_cases row s w :
  match sinopsis s with
  | None => parse_details row s w = Some (Raise AttributeError, w)
  | Some d =>
      let w1 := updated w row (set_description (Str (strip d))) in
      match genero s with
      | None => parse_details row s w = Some (Raise AttributeError, w1)
      | Some g =>
          let w2 :=
            updated w1 row (set_genre (Str (join " / " (a_text <$> g)))) in
          match downloadContainer s with
          | None => parse_details row s w = Some (Raise AttributeError, w2)
          | Some links =>
              parse_details row s w
              = for_each (classify_link row) tt links w2
          end
      end
  end.
Proof.
  unfold parse_details, mbind, io_bind, lift, loc_set.
  destruct (sinopsis s) as [d|]; simpl; [|done].
  destruct (genero s) as [g|]; simpl; [|done].
  by destruct (downloadContainer s) as [links|].
Qed.

Lemma details_attempt_cases row w :
  match books_df w !! row with
  | None => details_attempt net row w = Some (Raise KeyError, w)
  | Some r =>
      match net (length (log w)) (website r) with
      | Fails e =>
          details_attempt net row w
          = Some (Raise e, logged w [website r])
      | Page s =>
          details_attempt net row w
          = parse_details row s (logged w [website r])
      end
  end.
Proof.
  unfold details_attempt, mbind, io_bind, loc_website, requests_get.
  destruct (books_df w !! row) as [r|]; [|done].
  by destruct (net (length (log w)) (website r)).
Qed.

Lemma details_attempt_total row w : is_Some (details_attempt net row w).
Proof.
  pose proof (details_attempt_cases row w) as H.
  destruct (books_df w !! row) as [r|]; [|by rewrite H].
  destruct (net (length (log w)) (website r)) as [e|s]; rewrite H; [done|].
  pose proof (parse_details_cases row s (logged w [website r])) as Hp.
  destruct (sinopsis s) as [d|]; [|by rewrite Hp].
  destruct (genero s) as [g|]; [|by rewrite Hp].
  destruct (downloadContainer s) as [links|]; rewrite Hp; [|done].
  match goal with
  | |- is_Some (for_each _ _ _ ?w2) =>
      destruct (for_each_classify_cases row links w2)
        as (w' & [-> | ->] & _); done
  end.
Qed.

Lemma frame_kept_refl row df : frame_kept row df df.
Proof.
  split; [done|]. split; [done|]. intros r Hr. by exists r.
Qed.

Lemma frame_kept_trans row df1 df2 df3 :
  frame_kept row df1 df2 -> frame_kept row df2 df3 ->
  frame_kept row df1 df3.
Proof.
  intros (Hl1 & Ho1 & Hr1) (Hl2 & Ho2 & Hr2).
  split; [congruence|]. split.
  - intros j Hj. by rewrite Ho2, Ho1.
  - intros r Hr. destruct (Hr1 r Hr) as (r2 & Hr2' & Hk1).
    destruct (Hr2 r2 Hr2') as (r3 & Hr3 & Hk2).
    exists r3. split; [done|].
    destruct Hk1 as (? & ? & ? & ? & ?), Hk2 as (? & ? & ? & ? & ?).
    repeat split; congruence.
Qed.

Lemma frame_kept_alter row df f :
  (forall r, keeps_downloads r (f r)) ->
  frame_kept row df (alter f row df).
Proof.
  intros Hf. split; [by rewrite length_alter|]. split.
  - intros j Hj. by rewrite list_lookup_alter_ne.
  - intros r Hr. exists (f r). split; [|done].
    by rewrite list_lookup_alter_eq, Hr.
Qed.

(** What a failed attempt leaves: one more request, and a frame that
    differs at most in the description and the genre of the row. *)
Lemma attempt_fails_kept row w w' :
  attempt_fails net row w = Some w' ->
  exists r, books_df w !! row = Some r /\
            log w' = log w ++ [website r] /\
            frame_kept row (books_df w) (books_df w').
Proof.
  intros H. apply attempt_fails_inv in H as (e & Hatt & He).
  pose proof (details_attempt_cases row w) as Hc.
  destruct (books_df w !! row) as [r|]; [|by simplify_eq].
  exists r. split; [done|].
  destruct (net (length (log w)) (website r)) as [e'|s].
  { rewrite Hc in Hatt. injection Hatt as -> <-.
    split; [done|]. apply frame_kept_refl. }
  rewrite Hc in Hatt.
  pose proof (parse_details_cases row s (logged w [website r])) as Hp.
  destruct (sinopsis s) as [d|].
  2:{ rewrite Hp in Hatt. injection Hatt as <- <-.
      split; [done|]. apply frame_kept_refl. }
  destruct (genero s) as [g|].
  2:{ rewrite Hp in Hatt. injection Hatt as <- <-.
      split; [done|]. by apply frame_kept_alter. }
  destruct (downloadContainer s) as [links|].
  2:{ rewrite Hp in Hatt. injection Hatt as <- <-.
      split; [done|]. simpl.
      eapply frame_kept_trans; by apply frame_kept_alter. }
  rewrite Hp in Hatt.
  match type of Hatt with
  | for_each _ _ _ ?w2 = _ =>
      destruct (for_each_classify_cases row links w2)
        as (w'' & [Hw | Hw] & _); rewrite Hw in Hatt
  end; by simplify_eq.
Qed.

Lemma failed_attempts_kept k row w w' r :
  failed_attempts net row k w = Some w' ->
  books_df w !! row = Some r ->
  log w' = log w ++ replicate k (website r) /\
  frame_kept row (books_df w) (books_df w').
Proof.
  revert w r; induction k as [|k IH]; intros w r; cbn [failed_attempts].
  - intros [= ->] _. rewrite app_nil_r. split; [done|].
    apply frame_kept_refl.
  - intros Hk Hr.
    destruct (attempt_fails net row w) as [w1|] eqn:H1; [|done].
    change (failed_attempts net row k w1 = Some w') in Hk.
    apply attempt_fails_kept in H1 as (r0 & Hr0 & Hlog1 & Hkept1).
    assert (r0 = r) as -> by congruence.
    destruct Hkept1 as (Hl1 & Ho1 & Hrow1).
    destruct (Hrow1 r Hr) as (r1 & Hr1 & Hk1).
    destruct (IH w1 r1 Hk Hr1) as [Hlog Hkept].
    split.
    + rewrite Hlog, Hlog1, <- app_assoc.
      destruct Hk1 as (_ & _ & -> & _). done.
    + eapply frame_kept_trans; [|done]. by split.
Qed.

(** An attempt whose request fails with a network error, or whose page
    has no description container, fails and leaves the frame as it
    was. *)
Lemma attempt_fails_early row w r :
  books_df w !! row = Some r ->
  fails_early (net (length (log w)) (website r)) = true ->
  attempt_fails net row w = Some (logged w [website r]).
Proof.
  intros Hr He. unfold attempt_fails.
  pose proof (details_attempt_cases row w) as Hc. rewrite Hr in Hc.
  destruct (net (length (log w)) (website r)) as [e|s];
    simpl in He; rewrite Hc.
  - by rewrite He.
  - pose proof (parse_details_cases row s (logged w [website r])) as Hp.
    destruct (sinopsis s); [done|]. by rewrite Hp.
Qed.

Lemma failed_attempts_early k row w r :
  books_df w !! row = Some r ->
  early_failures net w (website r) k ->
  failed_attempts net row k w
  = Some (logged w (replicate k (website r))).
Proof.
  revert w; induction k as [|k IH]; intros w Hr He; cbn [failed_attempts].
  - by rewrite logged_nil.
  - rewrite (attempt_fails_early row w r Hr).
    2:{ specialize (He 0%nat). rewrite Nat.add_0_r in He.
        apply He. lia. }
    change (failed_attempts net row k (logged w [website r])
            = Some (logged w (replicate (S k) (website r)))).
    rewrite IH; [by rewrite logged_logged|done|].
    intros i Hi. simpl. rewrite length_app; simpl.
    replace (length (log w) + 1 + i)%nat
      with (length (log w) + S i)%nat by lia.
    apply He. lia.
Qed.

(** The loop never runs out of the fuel its caller gives. *)
Lemma details_loop_total fuel row a w :
  (6 <= S fuel + a)%nat ->
  is_Some (details_loop net (S fuel) row a false w).
Proof.
  revert a w; induction fuel as [|fuel IH]; intros a w Hf.
  - cbn [details_loop]. unfold max_attempts.
    replace (a <? 5)%nat with false; [done|].
    symmetry. apply Nat.ltb_ge. lia.
  - destruct (decide (a < 5)%nat) as [Ha|Ha].
    + destruct (details_attempt_total row w) as [[[[]|e] w1] Hatt].
      * by rewrite (details_loop_done _ _ _ _ w1).
      * destruct (is_RequestException e || is_AttributeError e) eqn:He.
        -- rewrite (details_loop_caught _ _ _ _ e w1) by done.
           apply IH; lia.
        -- by rewrite (details_loop_uncaught _ _ _ _ e w1).
    + cbn [details_loop]. unfold max_attempts.
      replace (a <? 5)%nat with false; [done|].
      symmetry. apply Nat.ltb_ge. lia.
Qed.

End details_loop.

(** ** Rows after the retries are used up *)

(** C3.  When the request of the detail page of a row times out on five
    attempts in a row, [get_book_details] returns, the frame is the one
    before the call (so the row is there, with its description, genre,
    epub and pdf as they were), and five requests of the row's website
    were sent. *)
Theorem get_book_details_timeouts (net : nat -> string -> response) row w r :
  books_df w !! row = Some r ->
  timeouts net w (website r) 5 ->
  exists w',
    get_book_details net row w = Some (Ok tt, w') /\
    log w' = log w ++ replicate 5 (website r) /\
    books_df w' = books_df w /\
    books_df w' !! row = Some r.
Proof.
  intros Hr Hto. exists (logged w (replicate 5 (website r))).
  split; [|done].
  apply get_book_details_exhausted, failed_attempts_early; [done|].
  intros i Hi. by rewrite Hto.
Qed.

(** C2, as the code has it.  When [get_book_details] uses up its five
    attempts, each failing with a network error or a missing element, it
    returns and the row is still in the table, with its author, title,
    website, epub and pdf as before the call; no other row changes.  The
    description and the genre are as before the call when every attempt
    failed at the request or at the description container. *)
Theorem get_book_details_exhausted_kept (net : nat -> string -> response)
    row w w' :
  failed_attempts net row 5 w = Some w' ->
  get_book_details net row w = Some (Ok tt, w') /\
  length (books_df w') = length (books_df w) /\
  (forall j, j <> row -> books_df w' !! j = books_df w !! j) /\
  exists r r',
    books_df w !! row = Some r /\ books_df w' !! row = Some r' /\
    author r' = author r /\ title r' = title r /\ website r' = website r /\
    epub r' = epub r /\ pdf r' = pdf r /\
    (early_failures net w (website r) 5 ->
     description r' = description r /\ genre r' = genre r).
Proof.
  intros H. split; [by apply get_book_details_exhausted|].
  assert (exists r, books_df w !! row = Some r) as [r Hr].
  { cbn [failed_attempts] in H.
    destruct (attempt_fails net row w) as [w1|] eqn:H1; [|done].
    apply attempt_fails_kept in H1 as (r & Hr & _). by exists r. }
  destruct (failed_attempts_kept net 5 row w w' r H Hr)
    as (Hlog & Hlen & Hother & Hrow).
  split; [done|]. split; [done|].
  destruct (Hrow r Hr) as (r' & Hr' & Ha & Ht & Hw & He & Hp).
  exists r, r'. repeat (split; [done|]).
  intros Hearly.
  rewrite (failed_attempts_early net 5 row w r Hr Hearly) in H.
  injection H as <-. simpl in Hr'. by simplify_eq.
Qed.

(** ** Which errors are retried *)

Lemma main_listing_raises (net : nat -> string -> response) w0 soup0 pages
    e w' :
  net (length (log w0)) INITIAL_URL = Page soup0 ->
  total_pages_of soup0 = Ok pages ->
  scrape_books net pages (logged w0 [INITIAL_URL]) = Some (Raise e, w') ->
  main net w0 = Some (Raise e, w').
Proof.
  intros Hnet Hpages Hscrape. unfold main.
  apply io_bind_raise. unfold listing_phase.
  erewrite io_bind_ok; [|unfold requests_get; by rewrite Hnet].
  erewrite io_bind_ok; [|unfold lift; by rewrite Hpages].
  done.
Qed.

(** C6.  In the listing path a timeout is retried and any other error of
    the fetch is not caught: when the main block has reached page [p] and
    the fetch of that page times out [k < 5] times and then raises
    [e_l], which is not a timeout, the main block ends with [e_l] after
    [k + 1] requests of the page.  In the detail path every network
    error is retried: when the five requests of a row's website raise
    [e_d], a [RequestException] of any kind, [get_book_details] returns
    after the five requests. *)
Theorem listing_raises_details_retries (net : nat -> string -> response)
    e_l e_d w0 soup0 pages p df w k row r wd :
  net (length (log w0)) INITIAL_URL = Page soup0 ->
  total_pages_of soup0 = Ok pages ->
  1 <= p <= pages ->
  for_each (scrape_page net) [] (range 1 p) (logged w0 [INITIAL_URL])
  = Some (Ok df, w) ->
  (k < 5)%nat ->
  timeouts net w (page_url p) k ->
  net (length (log w) + k)%nat (page_url p) = Fails e_l ->
  is_Timeout e_l = false ->
  books_df wd !! row = Some r ->
  (forall i, (i < 5)%nat ->
             net (length (log wd) + i)%nat (website r) = Fails e_d) ->
  is_RequestException e_d = true ->
  main net w0 = Some (Raise e_l, logged w (replicate (S k) (page_url p))) /\
  get_book_details net row wd
  = Some (Ok tt, logged wd (replicate 5 (website r))).
Proof.
  intros Hnet0 Hpages Hp Hbefore Hk Hto Hnet He_l Hr Hnetd He_d. split.
  - apply (main_listing_raises net w0 soup0 pages); [done..|].
    unfold scrape_books. rewrite (range_split 1 p) by lia.
    rewrite (for_each_app _ _ _ _ _ _ _ Hbefore).
    cbn [for_each]. apply io_bind_raise.
    by apply scrape_page_error.
  - apply get_book_details_exhausted, failed_attempts_early; [done|].
    intros i Hi. by rewrite Hnetd.
Qed.

(** ** Download links *)

Lemma classify_link_epub row link w h :
  contains "epub" (lower (a_text link)) = true ->
  a_href link = Some h ->
  classify_link row tt link w
  = Some (Ok tt, updated w row (set_epub (Str (base_url +:+ h)))).
Proof.
  intros He Hh. unfold classify_link. rewrite He.
  unfold mbind, io_bind, lift, loc_set. by rewrite Hh.
Qed.

Lemma classify_link_pdf row link w h :
  contains "epub" (lower (a_text link)) = false ->
  contains "pdf" (lower (a_text link)) = true ->
  a_href link = Some h ->
  classify_link row tt link w
  = Some (Ok tt, updated w row (set_pdf (Str (base_url +:+ h)))).
Proof.
  intros He Hp Hh. unfold classify_link. rewrite He, Hp.
  unfold mbind, io_bind, lift, loc_set. by rewrite Hh.
Qed.

Lemma classify_link_other row link w :
  contains "epub" (lower (a_text link)) = false ->
  contains "pdf" (lower (a_text link)) = false ->
  classify_link row tt link w = Some (Ok tt, w).
Proof. intros He Hp. unfold classify_link. by rewrite He, Hp. Qed.

(** C5.  For a download container with the three links "Descargar EPUB",
    "Descargar PDF" and "Unrelated", in this order, the loop over the
    links stores the resolved URL of the first in the epub column, that
    of the second in the pdf column, and nothing for the third: the row
    is otherwise as it was, whatever the third link points to. *)
Theorem classify_epub_pdf_unrelated row w r h1 h2 h3 t1 t2 t3 :
  books_df w !! row = Some r ->
  for_each (classify_link row) tt
    [ {| a_href := Some h1; a_title := t1; a_text := "Descargar EPUB" |};
      {| a_href := Some h2; a_title := t2; a_text := "Descargar PDF" |};
      {| a_href := h3; a_title := t3; a_text := "Unrelated" |} ] w
  = Some (Ok tt,
          {| log := log w;
             books_df :=
               <[row := {| author := author r; title := title r;
                           website := website r; genre := genre r;
                           description := description r;
                           epub := Str (base_url +:+ h1);
                           pdf := Str (base_url +:+ h2) |}]> (books_df w) |}).
Proof.
  intros Hr. cbn [for_each].
  erewrite io_bind_ok; [|by apply classify_link_epub].
  erewrite io_bind_ok; [|by apply classify_link_pdf].
  erewrite io_bind_ok; [|by apply classify_link_other].
  unfold mret, io_ret, updated; simpl.
  rewrite list_alter_alter_eq, list_insert_alter.
  do 3 f_equal. apply list_alter_ext; [|done].
  intros r' Hr'. by simplify_eq.
Qed.

Lemma fmap_alter_same {A B : Type} (g : A -> B) (f : A -> A) i (l : list A) :
  (forall x, g (f x) = g x) -> g <$> alter f i l = g <$> l.
Proof.
  intros Hgf. revert i; induction l as [|x l IH]; intros [|i]; simpl;
    try done.
  - by rewrite Hgf.
  - f_equal. apply IH.
Qed.

(** C10.  A download link whose text contains both "epub" and "pdf"
    (whatever the case of the letters) takes the epub branch only: for a
    row of the frame, the epub of the row becomes the resolved URL of the
    link, and its pdf and every other column, the other rows and the
    request log are as they were; the pdf column of the frame is
    untouched.  (A link without a target raises [TypeError] and stores
    nothing.) *)
Theorem classify_link_epub_first row link w r :
  books_df w !! row = Some r ->
  contains "epub" (lower (a_text link)) = true ->
  contains "pdf" (lower (a_text link)) = true ->
  classify_link row tt link w
  = match a_href link with
    | Some h =>
        Some (Ok tt,
              {| log := log w;
                 books_df :=
                   <[row := {| author := author r; title := title r;
                               website := website r; genre := genre r;
                               description := description r;
                               epub := Str ("https://www.lectulandia.co"
                                            +:+ h);
                               pdf := pdf r |}]> (books_df w) |})
    | None => Some (Raise TypeError, w)
    end /\
  forall x w', classify_link row tt link w = Some (x, w') ->
               pdf <$> books_df w' = pdf <$> books_df w.
Proof.
  intros Hr He _.
  assert (classify_link row tt link w
          = match a_href link with
            | Some h =>
                Some (Ok tt, updated w row (set_epub (Str (base_url +:+ h))))
            | None => Some (Raise TypeError, w)
            end) as Hc.
  { unfold classify_link. rewrite He.
    unfold mbind, io_bind, lift, loc_set. by destruct (a_href link). }
  split.
  - rewrite Hc. destruct (a_href link) as [h|]; [|done].
    unfold updated. rewrite list_insert_alter. do 3 f_equal.
    apply list_alter_ext; [|done].
    intros r' Hr'. by simplify_eq.
  - intros x w'. rewrite Hc.
    destruct (a_href link) as [h|]; intros [= <- <-]; [|done].
    by apply fmap_alter_same.
Qed.

(** ** Authors *)

(** C7, as the code has it.  On a page whose nested links all have a
    target, the author extractor returns, in the order of the
    author-attribution elements, the text of the nested link for each
    element whose link target contains "autor", a null placeholder for
    each element without a nested link, and nothing for an element whose
    link target lacks the marker: an element adds at most one entry. *)
Theorem get_author_entries soup :
  links_have_href soup ->
  get_author soup = Ok (omap author_entry (subdetails soup)) /\
  (length (omap author_entry (subdetails soup))
   <= length (subdetails soup))%nat.
Proof.
  intros Hhref. split; [|apply omap_length_le].
  unfold get_author. by rewrite get_author_loop_entries.
Qed.

(** ** The page count as a numeral *)

Lemma remove_dots_without_dots (s : string) : remove_dots s = without_dots s.
Proof.
  unfold without_dots. induction s as [|c s IH]; simpl; [done|].
  destruct (Ascii.eqb_spec c ".") as [->|Hc].
  - by rewrite filter_cons_False by (by intros ?).
  - rewrite filter_cons_True by done. simpl. by rewrite IH.
Qed.

Lemma byte_pretty_N_char (d : N) :
  (d < 10)%N -> byte (pretty_N_char d) = 48 + Z.of_N d.
Proof.
  intros Hd.
  assert (exists k, d = N.of_nat k /\ (k < 10)%nat) as (k & -> & Hk).
  { exists (N.to_nat d). split; lia. }
  do 10 (destruct k as [|k]; [by vm_compute|]). lia.
Qed.

Lemma codes_cons_digit (d : N) (s : string) :
  (d < 10)%N ->
  codes (String (pretty_N_char d) s) = (48 + Z.of_N d) :: codes s.
Proof.
  intros Hd. unfold codes. cbn [utf8_decode].
  rewrite (byte_pretty_N_char d Hd).
  replace (48 + Z.of_N d <? 128) with true by (symmetry; apply Z.ltb_lt; lia).
  cbn [fmap list_fmap]. f_equal. unfold to_ascii.
  by replace (48 + Z.of_N d <? 127) with true
    by (symmetry; apply Z.ltb_lt; lia).
Qed.

(** The numeral of [x > 0] is a non-empty run of ASCII digits whose value
    is [x]. *)
Lemma codes_pretty_N_go (x : N) :
  (0 < x)%N ->
  exists ds,
    ds <> [] /\
    Forall (fun c => 48 <= c <= 57) ds /\
    (forall acc, digits_value acc ds
                 = acc * 10 ^ Z.of_nat (length ds) + Z.of_N x) /\
    (forall s, codes (pretty_N_go x s) = ds ++ codes s) /\
    (forall s, String.length (pretty_N_go x s)
               = (length ds + String.length s)%nat).
Proof.
  induction (N.lt_wf_0 x) as [x _ IH]; intros Hx.
  assert (x mod 10 < 10)%N as Hmod by (apply N.mod_lt; lia).
  pose proof (N.div_mod x 10) as Hdiv.
  assert (x / 10 < x)%N as Hlt by (apply N.div_lt; lia).
  assert (forall s, pretty_N_go x s
                    = pretty_N_go (x / 10)
                        (String (pretty_N_char (x mod 10)) s)) as Hstep.
  { intros s. by rewrite pretty_N_go_step. }
  revert Hmod Hdiv Hlt Hstep IH.
  generalize (x mod 10)%N (x / 10)%N. intros d q Hmod Hdiv Hlt Hstep IH.
  specialize (Hdiv ltac:(done)).
  destruct (decide (q = 0)%N) as [->|Hbig].
  - exists [48 + Z.of_N d].
    split; [done|]. split; [constructor; [lia|done]|].
    split; [intros acc; unfold digits_value; simpl; lia|].
    split; intros s; rewrite Hstep, pretty_N_go_0.
    + by rewrite codes_cons_digit.
    + done.
  - destruct (IH q) as (ds & Hne & Hall & Hval & Hcodes & Hlen);
      [done|lia|].
    exists (ds ++ [48 + Z.of_N d]).
    split; [by destruct ds|].
    split; [apply Forall_app; split; [done|constructor; [lia|done]]|].
    split.
    { intros acc. unfold digits_value in *. rewrite fold_left_app, Hval.
      simpl. rewrite length_app; simpl.
      rewrite Nat2Z.inj_add, Z.pow_add_r by lia.
      change (10 ^ Z.of_nat 1) with 10. lia. }
    split; intros s; rewrite Hstep.
    + by rewrite Hcodes, codes_cons_digit, <- app_assoc.
    + rewrite Hlen, length_app; simpl. lia.
Qed.

Lemma scan_digits_app (ds rest : list Z) acc digits u :
  ds <> [] ->
  Forall (fun c => 48 <= c <= 57) ds ->
  scan_digits acc digits u (ds ++ rest)
  = scan_digits (digits_value acc ds) (digits + length ds) false rest.
Proof.
  intros Hne Hall. revert acc digits u Hne.
  induction Hall as [|c ds Hc _ IH]; intros acc digits u Hne; [done|].
  cbn [app scan_digits].
  replace ((48 <=? c) && (c <=? 57)) with true
    by (symmetry; apply andb_true_iff; split; apply Z.leb_le; lia).
  destruct ds as [|c' ds].
  - simpl. by replace (digits + 1)%nat with (S digits) by lia.
  - rewrite IH by done. unfold digits_value; simpl.
    by replace (digits + S (S (length ds)))%nat
      with (S digits + S (length ds))%nat by lia.
Qed.

Lemma digit_code_tests (c : Z) :
  48 <= c <= 57 ->
  Py_ISSPACE c = false /\ (c =? 43) = false /\ (c =? 45) = false /\
  (c =? 95) = false.
Proof.
  intros Hc. unfold Py_ISSPACE.
  repeat split; repeat (apply orb_false_iff; split);
    try (apply Z.eqb_neq; lia).
  apply andb_false_iff. right. apply Z.leb_gt. lia.
Qed.

(** [PyLong_FromString] on a run of at most 4300 digits, after a minus
    sign or not. *)
Lemma long_from_string_digits (ds : list Z) :
  ds <> [] ->
  Forall (fun c => 48 <= c <= 57) ds ->
  (length ds <= 4300)%nat ->
  long_from_string ds = Some (digits_value 0 ds) /\
  long_from_string (45 :: ds) = Some (- digits_value 0 ds).
Proof.
  intros Hne Hall Hlen.
  assert (scan_digits 0 0 false ds
          = Some (digits_value 0 ds, length ds, [])) as Hscan.
  { rewrite <- (app_nil_r ds) at 1. by rewrite scan_digits_app. }
  assert ((length ds =? 0)%nat || (max_str_digits <? length ds)%nat = false)
    as Hmax.
  { apply orb_false_iff. split.
    - apply Nat.eqb_neq. by destruct ds.
    - apply Nat.ltb_ge. unfold max_str_digits. lia. }
  destruct ds as [|c ds]; [done|].
  pose proof (Forall_inv Hall) as Hc.
  destruct (digit_code_tests c Hc) as (Hsp & H43 & H45 & H95).
  split; unfold long_from_string; cbn [skip_spaces head_is tail].
  - rewrite Hsp. cbn [head_is]. rewrite H43, H45. cbn [orb].
    cbn [head_is]. rewrite H95, Hscan. cbn [skip_spaces]. by rewrite Hmax.
  - change (Py_ISSPACE 45) with false. cbn [head_is].
    change (45 =? 43) with false. change (45 =? 45) with true.
    cbn [orb tail head_is]. rewrite H95, Hscan. cbn [skip_spaces].
    by rewrite Hmax.
Qed.

(** [int(str(n)) == n], up to the bound on the number of digits. *)
Lemma py_int_pretty (n : Z) :
  (String.length (pretty n) <= 4300)%nat ->
  py_int (pretty n) = Ok n.
Proof.
  destruct n as [|p|p]; [by vm_compute|..]; intros Hlen;
    destruct (codes_pretty_N_go (N.pos p))
      as (ds & Hne & Hall & Hval & Hcodes & Hslen); [lia| |lia|].
  - assert (pretty (Z.pos p) = pretty_N_go (N.pos p) "") as Hpretty.
    { unfold pretty, pretty_Z, pretty, pretty_positive, pretty, pretty_N.
      by rewrite decide_False. }
    rewrite Hpretty in *. rewrite Hslen in Hlen; simpl in Hlen.
    unfold py_int. fold (codes (pretty_N_go (N.pos p) "")).
    rewrite Hcodes. change (codes "") with (@nil Z). rewrite app_nil_r.
    destruct (long_from_string_digits ds) as [Hl _]; [done|done|lia|].
    by rewrite Hl, Hval.
  - assert (pretty (Z.neg p) = String "-" (pretty_N_go (N.pos p) ""))
      as Hpretty.
    { unfold pretty, pretty_Z, pretty, pretty_positive, pretty, pretty_N.
      by rewrite decide_False. }
    rewrite Hpretty in *. cbn [String.length] in Hlen.
    rewrite Hslen in Hlen; simpl in Hlen.
    unfold py_int. fold (codes (String "-" (pretty_N_go (N.pos p) ""))).
    assert (codes (String "-" (pretty_N_go (N.pos p) ""))
            = 45 :: codes (pretty_N_go (N.pos p) "")) as -> by done.
    rewrite Hcodes. change (codes "") with (@nil Z). rewrite app_nil_r.
    destruct (long_from_string_digits ds) as [_ Hl]; [done|done|lia|].
    by rewrite Hl, Hval.
Qed.

(** ** The order of the pages *)

Lemma page_url_inj (p q : Z) : page_url p = page_url q -> p = q.
Proof.
  unfold page_url. intros H.
  apply (inj (String.app _)) in H.
  apply (inj pretty).
  revert H. generalize (pretty p) (pretty q). clear.
  intros s; induction s as [|c s IH]; intros [|c' t] H; simpl in H;
    try done.
  - injection H as -> H. by destruct t.
  - injection H as -> H. by destruct s.
  - injection H as -> H. f_equal. by apply IH.
Qed.

Lemma page_url_not_initial (p : Z) : page_url p <> INITIAL_URL.
Proof.
  unfold page_url, INITIAL_URL. intros H.
  cbv beta iota delta [String.append] in H.
  by simplify_eq.
Qed.

Lemma index_neg2_app {A : Type} (pre : list A) (a b : A) :
  index_neg2 (pre ++ [a; b]) = Ok a.
Proof.
  unfold index_neg2. rewrite length_app; simpl.
  replace (length pre + 2)%nat with (S (S (length pre))) by lia.
  replace (S (S (length pre)) - 2)%nat with (length pre) by lia.
  by rewrite lookup_app_r, Nat.sub_diag by lia.
Qed.

Lemma elem_of_page_requests url pages ks :
  url ∈ page_requests pages ks -> exists p, p ∈ pages /\ url = page_url p.
Proof.
  unfold page_requests. revert ks.
  induction pages as [|p pages IH]; intros [|k ks]; simpl;
    try (by intros ?%elem_of_nil).
  rewrite elem_of_app. intros [H|H].
  - apply elem_of_replicate in H as [-> _]. exists p. split; [left|done].
  - destruct (IH ks H) as (q & Hq & ->). exists q. split; [by right|done].
Qed.

Section page_order.
Variable net : nat -> string -> response.

Lemma fetch_loop_log fuel url a w :
  (6 <= S fuel + a)%nat ->
  exists x w' k,
    fetch_loop net (S fuel) url a None w = Some (x, w') /\
    w' = logged w (replicate k url) /\
    (a < 5 -> 1 <= k)%nat /\ (k <= 5 - a)%nat.
Proof.
  revert a w; induction fuel as [|fuel IH]; intros a w Hf.
  - exists (Ok None), w, 0%nat. rewrite logged_nil.
    split; [|split; [done|lia]].
    cbn [fetch_loop]. replace (a <? 5)%nat with false; [done|].
    symmetry. apply Nat.ltb_ge. lia.
  - destruct (decide (a < 5)%nat) as [Ha|Ha].
    + destruct (net (length (log w)) url) as [e|s] eqn:Hnet.
      * destruct (is_Timeout e) eqn:He.
        -- destruct e; try done.
           rewrite fetch_loop_timeout by done.
           destruct (IH (S a) (logged w [url]))
             as (x & w' & k & -> & -> & Hk1 & Hk2); [lia|].
           exists x, (logged w (replicate (S k) url)), (S k).
           rewrite logged_logged. split; [done|]. split; [done|lia].
        -- exists (Raise e), (logged w [url]), 1%nat.
           rewrite (fetch_loop_error _ _ _ _ _ e) by done.
           split; [done|]. split; [done|lia].
      * exists (Ok (Some s)), (logged w [url]), 1%nat.
        rewrite (fetch_loop_page _ _ _ _ _ s) by done.
        split; [done|]. split; [done|lia].
    + exists (Ok None), w, 0%nat. rewrite logged_nil.
      split; [|split; [done|lia]].
      cbn [fetch_loop]. replace (a <? 5)%nat with false; [done|].
      symmetry. apply Nat.ltb_ge. lia.
Qed.

(** A page costs between one and five requests, all of its own URL. *)
Lemma scrape_page_log df page w :
  exists x w' k,
    scrape_page net df page w = Some (x, w') /\
    w' = logged w (replicate k (page_url page)) /\
    (1 <= k <= 5)%nat.
Proof.
  destruct (fetch_loop_log 5 (page_url page) 0 w)
    as (x & w' & k & Hloop & -> & Hk1 & Hk2); [lia|].
  unfold scrape_page, mbind, io_bind. rewrite Hloop.
  destruct x as [[s|]|e].
  - unfold lift, mret, io_ret.
    destruct (page_frame s) as [page_df|e]; eexists _, _, k;
      (split; [done|]); split; [done|lia|done|lia].
  - eexists _, _, k. split; [done|]. split; [done|lia].
  - eexists _, _, k. split; [done|]. split; [done|lia].
Qed.

Lemma for_each_scrape_log pages df w :
  exists x w' ks,
    for_each (scrape_page net) df pages w = Some (x, w') /\
    w' = logged w (page_requests pages ks) /\
    Forall (fun k => 1 <= k <= 5)%nat ks /\
    (length ks <= length pages)%nat /\
    (forall df', x = Ok df' -> length ks = length pages).
Proof.
  revert df w; induction pages as [|page pages IH]; intros df w.
  - exists (Ok df), w, []. rewrite logged_nil. by repeat split.
  - cbn [for_each].
    destruct (scrape_page_log df page w) as (x & w1 & k & Hpage & -> & Hk).
    unfold mbind, io_bind. rewrite Hpage.
    destruct x as [df1|e].
    + destruct (IH df1 (logged w (replicate k (page_url page))))
        as (x & w' & ks & -> & -> & Hks & Hlen & Hok).
      exists x, (logged w (page_requests (page :: pages) (k :: ks))),
        (k :: ks).
      rewrite logged_logged. split; [done|]. split; [done|].
      split; [by constructor|]. split; [simpl; lia|].
      intros df' Hx. simpl. f_equal. by eapply Hok.
    + exists (Raise e), (logged w (page_requests (page :: pages) [k])),
        [k].
      unfold page_requests; simpl.
      rewrite zip_with_nil_r; simpl. rewrite app_nil_r.
      split; [done|]. split; [done|].
      split; [by constructor|]. split; [simpl; lia|done].
Qed.

End page_order.

(** The dots of the link text are dropped before it is read as an
    integer: "1.234" gives 1234 pages. *)
Example total_pages_of_dotted :
  total_pages_of
    {| subdetails := []; title_links := [];
       page_numbers := [ Sample.anchor "/book/page/1/" "1";
                         Sample.anchor "/book/page/1234/" "1.234";
                         Sample.anchor "/book/page/2/" "Siguiente" ];
       sinopsis := None; genero := None; downloadContainer := None |}
  = Ok 1234.
Proof. vm_compute; reflexivity. Qed.

Lemma page_requests_seqZ (lo n : Z) (ks : list nat) :
  (length ks <= Z.to_nat n)%nat ->
  page_requests (seqZ lo n) ks
  = concat (imap (fun i k => replicate k (page_url (lo + Z.of_nat i))) ks).
Proof.
  revert lo n; induction ks as [|k ks IH]; intros lo n Hlen.
  { unfold page_requests. by rewrite zip_with_nil_r. }
  simpl in Hlen. rewrite seqZ_cons by lia.
  unfold page_requests in *. cbn [zip_with concat imap].
  rewrite IH by lia. rewrite Z.add_0_r. do 2 f_equal.
  apply imap_ext. intros i k' _. simpl. do 2 f_equal. lia.
Qed.

(** C8.  The main block reads the number of pages once, from the first
    listing page: when the text of the second-to-last pagination link
    is, with its dots taken out, the decimal numeral of [N] (of at most
    4300 characters, the bound of [int]), the page count is [N], and the
    requests that follow the one of the first listing page are those of
    the pages 1, 2, ... in this order, between one and five for each
    page (block [i] of the requests is for page [i + 1]), up to page [N]
    when the listing is scraped to the end and up to the page at which
    an error ends the run otherwise.  Two pages never share a URL, and
    the first listing page is not requested again. *)
Theorem listing_phase_pages_in_order (net : nat -> string -> response)
    w soup pre a last N :
  net (length (log w)) "https://www.lectulandia.co/book/" = Page soup ->
  page_numbers soup = pre ++ [a; last] ->
  without_dots (a_text a) = pretty N ->
  (String.length (pretty N) <= 4300)%nat ->
  total_pages_of soup = Ok N /\
  exists x w' ks,
    listing_phase net w = Some (x, w') /\
    log w'
    = log w ++ "https://www.lectulandia.co/book/"
        :: concat (imap (fun i k =>
                           replicate k
                             ("https://www.lectulandia.co/book/page/"
                              +:+ pretty (Z.of_nat i + 1) +:+ "/")) ks) /\
    Forall (fun k => 1 <= k <= 5)%nat ks /\
    (length ks <= Z.to_nat N)%nat /\
    (forall books, x = Ok books -> length ks = Z.to_nat N) /\
    (forall i j : nat,
       "https://www.lectulandia.co/book/page/"
         +:+ pretty (Z.of_nat i + 1) +:+ "/"
       = "https://www.lectulandia.co/book/page/"
         +:+ pretty (Z.of_nat j + 1) +:+ "/" ->
       i = j) /\
    "https://www.lectulandia.co/book/"
    ∉ concat (imap (fun i k =>
                      replicate k
                        ("https://www.lectulandia.co/book/page/"
                         +:+ pretty (Z.of_nat i + 1) +:+ "/")) ks).
Proof.
  intros Hnet Hlinks Htext Hdigits.
  assert (total_pages_of soup = Ok N) as Hpages.
  { unfold total_pages_of. rewrite Hlinks, index_neg2_app; simpl.
    rewrite remove_dots_without_dots, Htext. by apply py_int_pretty. }
  split; [done|].
  destruct (for_each_scrape_log net (range 1 (N + 1)) []
              (logged w [INITIAL_URL]))
    as (x & w' & ks & Hrun & -> & Hks & Hlen & Hok).
  assert (length (range 1 (N + 1)) = Z.to_nat N) as HlenN.
  { unfold range. rewrite length_seqZ. lia. }
  assert (page_requests (range 1 (N + 1)) ks
          = concat (imap (fun i k =>
                            replicate k (page_url (Z.of_nat i + 1))) ks))
    as Hreq.
  { unfold range. rewrite page_requests_seqZ by lia. f_equal.
    apply imap_ext. intros i k _. simpl. do 2 f_equal. lia. }
  exists x, (logged (logged w [INITIAL_URL])
               (page_requests (range 1 (N + 1)) ks)), ks.
  split; [|split; [|split; [|split; [|split; [|split]]]]].
  - unfold listing_phase.
    erewrite io_bind_ok;
      [|unfold requests_get, INITIAL_URL; by rewrite Hnet].
    erewrite io_bind_ok; [|unfold lift; by rewrite Hpages].
    done.
  - simpl. by rewrite Hreq, <- app_assoc.
  - done.
  - by rewrite <- HlenN.
  - intros books Hx. rewrite <- HlenN. by eapply Hok.
  - intros i j Hij. apply page_url_inj in Hij. lia.
  - intros Hin.
    assert (INITIAL_URL ∈ page_requests (range 1 (N + 1)) ks) as Hin'
      by (by rewrite Hreq).
    apply elem_of_page_requests in Hin' as (p & _ & Hp).
    by apply (page_url_not_initial p).
Qed.

(** ** The model never runs out of fuel *)

Lemma get_book_details_missing_row (net : nat -> string -> response) row w :
  books_df w !! row = None ->
  get_book_details net row w = Some (Raise KeyError, w).
Proof.
  intros Hrow. unfold get_book_details, max_attempts.
  apply details_loop_uncaught; [lia| |done].
  pose proof (details_attempt_cases net row w) as H.
  by rewrite Hrow in H.
Qed.

Lemma for_each_total {A B : Type} (body : A -> B -> io A) a l w :
  (forall a x w, is_Some (body a x w)) ->
  is_Some (for_each body a l w).
Proof.
  intros Hbody. revert a w; induction l as [|x l IH]; intros a w; simpl.
  - done.
  - unfold mbind, io_bind.
    destruct (Hbody a x w) as [[[a'|e] w'] ->]; [apply IH|done].
Qed.

Lemma scrape_books_total (net : nat -> string -> response) pages w :
  is_Some (scrape_books net pages w).
Proof.
  destruct (for_each_scrape_log net (range 1 (pages + 1)) [] w)
    as (x & w' & ks & H & _).
  unfold scrape_books. by rewrite H.
Qed.

Lemma enrich_book_data_total (net : nat -> string -> response) w :
  is_Some (enrich_book_data net w).
Proof.
  unfold enrich_book_data, mbind, io_bind, get_books_df.
  apply for_each_total. intros [] row w'.
  apply details_loop_total. unfold max_attempts. lia.
Qed.

(** The main block returns or raises: no loop of the model is cut short. *)
Lemma main_total (net : nat -> string -> response) w :
  is_Some (main net w).
Proof.
  unfold main, listing_phase, mbind, io_bind, requests_get, lift,
    set_books_df.
  destruct (net (length (log w)) INITIAL_URL) as [e|soup]; [done|].
  destruct (total_pages_of soup) as [pages|e]; [|done].
  destruct (scrape_books_total net pages (logged w [INITIAL_URL]))
    as [[[books|e] w'] ->]; [|done].
  apply enrich_book_data_total.
Qed.

(** * Instances *)

(** The scenario of a listing of two pages: the first page has three
    books, the second times out five times; the table has three rows. *)
Lemma scrape_books_skips_timed_out_page_witness :
  for_each (scrape_page Sample.net_listing_then_timeouts) [] (range 1 2)
    Sample.start
  = Some (Ok Sample.listing_rows, logged Sample.start [page_url 1]) /\
  timeouts Sample.net_listing_then_timeouts
    (logged Sample.start [page_url 1]) (page_url 2) 5 /\
  scrape_books Sample.net_listing_then_timeouts 2 Sample.start
  = Some (Ok Sample.listing_rows,
          logged (logged Sample.start [page_url 1])
            (replicate 5 (page_url 2))).
Proof.
  assert (for_each (scrape_page Sample.net_listing_then_timeouts) []
            (range 1 2) Sample.start
          = Some (Ok Sample.listing_rows, logged Sample.start [page_url 1]))
    as Hbefore by (vm_compute; reflexivity).
  assert (timeouts Sample.net_listing_then_timeouts
            (logged Sample.start [page_url 1]) (page_url 2) 5)
    as Hto by (intros i _; reflexivity).
  split; [exact Hbefore|]. split; [exact Hto|].
  destruct (scrape_books_skips_timed_out_page
              Sample.net_listing_then_timeouts 2 2 Sample.start
              Sample.listing_rows (logged Sample.start [page_url 1]))
    as [_ ->]; [lia|exact Hbefore|exact Hto|].
  vm_compute; reflexivity.
Defined.


Lemma get_book_details_timeouts_witness :
  exists w',
    get_book_details Sample.net_timeouts 0 Sample.enriching
    = Some (Ok tt, w') /\
    books_df w' !! 0%nat = Some Sample.quijote.
Proof.
  destruct (get_book_details_timeouts Sample.net_timeouts 0 Sample.enriching
              Sample.quijote)
    as (w' & Hrun & _ & _ & Hrow).
  - reflexivity.
  - intros i _. reflexivity.
  - exists w'. split; [exact Hrun|exact Hrow].
Defined.

(** C2 fails as it is stated, for the description and for the genre: a
    detail page with a description and genres and no download container
    makes each of the five attempts fail with a missing element, after
    the description and the genre were stored. *)
Lemma exhausted_attempts_change_fields :
  ~ (forall (net : nat -> string -> response) row w w' r r',
        failed_attempts net row 5 w = Some w' ->
        get_book_details net row w = Some (Ok tt, w') ->
        books_df w !! row = Some r ->
        books_df w' !! row = Some r' ->
        description r' = description r) /\
  ~ (forall (net : nat -> string -> response) row w w' r r',
        failed_attempts net row 5 w = Some w' ->
        get_book_details net row w = Some (Ok tt, w') ->
        books_df w !! row = Some r ->
        books_df w' !! row = Some r' ->
        genre r' = genre r).
Proof.
  split; intros H;
    (eassert (_ = _) as Hd;
     [eapply (H Sample.net_without_downloads 0%nat Sample.enriching);
      [vm_compute; reflexivity|vm_compute; reflexivity
      |reflexivity|reflexivity]|]);
    discriminate Hd.
Qed.

Lemma get_book_details_exhausted_kept_witness :
  exists w',
    failed_attempts Sample.net_without_genre 0 5 Sample.enriching = Some w' /\
    get_book_details Sample.net_without_genre 0 Sample.enriching
    = Some (Ok tt, w') /\
    length (books_df w') = 1%nat.
Proof.
  eexists. split; [vm_compute; reflexivity|].
  match goal with
  | |- get_book_details _ _ _ = Some (Ok tt, ?w') /\ _ =>
      destruct (get_book_details_exhausted_kept Sample.net_without_genre
                  0 Sample.enriching w')
        as (Hrun & Hlen & _)
  end.
  - vm_compute; reflexivity.
  - split; [exact Hrun|exact Hlen].
Defined.

Lemma listing_raises_details_retries_witness :
  main Sample.net_refused Sample.start
  = Some (Raise ConnectionError,
          logged Sample.started (replicate 3 (page_url 1))) /\
  get_book_details Sample.net_refused 0 Sample.enriching_later
  = Some (Ok tt,
          logged Sample.enriching_later
            (replicate 5 (website Sample.quijote))).
Proof.
  apply (listing_raises_details_retries Sample.net_refused
           ConnectionError ConnectionError Sample.start Sample.listing
           2 1 [] Sample.started 2 0 Sample.quijote Sample.enriching_later).
  - reflexivity.
  - vm_compute; reflexivity.
  - lia.
  - vm_compute; reflexivity.
  - lia.
  - intros [|[|i]] Hi; [reflexivity|reflexivity|lia].
  - reflexivity.
  - reflexivity.
  - reflexivity.
  - intros i _. reflexivity.
  - reflexivity.
Defined.

Lemma classify_epub_pdf_unrelated_witness :
  for_each (classify_link 0) tt
    [ {| a_href := Some "/download/1.epub"; a_title := None;
         a_text := "Descargar EPUB" |};
      {| a_href := Some "/download/1.pdf"; a_title := None;
         a_text := "Descargar PDF" |};
      {| a_href := Some "/foro"; a_title := None; a_text := "Unrelated" |} ]
    Sample.enriching
  = Some (Ok tt,
          {| log := [];
             books_df :=
               [ {| author := Str "Miguel de Cervantes";
                    title := Str "Don Quijote";
                    website := "https://www.lectulandia.co/book/don-quijote";
                    genre := NaN; description := NaN;
                    epub := Str "https://www.lectulandia.co/download/1.epub";
                    pdf := Str "https://www.lectulandia.co/download/1.pdf" |} ]
          |}).
Proof.
  rewrite (classify_epub_pdf_unrelated 0 Sample.enriching Sample.quijote);
    reflexivity.
Defined.

Lemma classify_link_epub_first_witness :
  classify_link 0 tt (Sample.anchor "/download/1.zip" "EPUB + PDF")
    Sample.enriching
  = Some (Ok tt,
          {| log := [];
             books_df :=
               [ {| author := Str "Miguel de Cervantes";
                    title := Str "Don Quijote";
                    website := "https://www.lectulandia.co/book/don-quijote";
                    genre := NaN; description := NaN;
                    epub := Str "https://www.lectulandia.co/download/1.zip";
                    pdf := NaN |} ] |}).
Proof.
  destruct (classify_link_epub_first 0
              (Sample.anchor "/download/1.zip" "EPUB + PDF")
              Sample.enriching Sample.quijote) as [-> _].
  - reflexivity.
  - vm_compute; reflexivity.
  - vm_compute; reflexivity.
  - reflexivity.
Defined.

(** C7 fails as it is stated: an attribution element whose nested link
    points elsewhere adds no entry. *)
Lemma get_author_skips_other_links :
  ~ (forall soup authors,
        get_author soup = Ok authors ->
        length authors = length (subdetails soup)).
Proof.
  intros H. specialize (H Sample.listing_genre_link [] eq_refl).
  discriminate H.
Qed.

Lemma get_author_entries_witness :
  get_author Sample.listing
  = Ok [Str "Miguel de Cervantes"; NaN; Str "Rosalia de Castro"].
Proof.
  destruct (get_author_entries Sample.listing) as [-> _].
  - repeat constructor; intros a [= <-]; eexists; reflexivity.
  - vm_compute; reflexivity.
Defined.

Lemma listing_phase_pages_in_order_witness :
  listing_phase SampleDetail.net_two_listings Sample.start
  = Some (Ok Sample.listing_rows,
          {| log := [ "https://www.lectulandia.co/book/";
                      "https://www.lectulandia.co/book/page/1/";
                      "https://www.lectulandia.co/book/page/2/";
                      "https://www.lectulandia.co/book/page/2/";
                      "https://www.lectulandia.co/book/page/2/";
                      "https://www.lectulandia.co/book/page/2/";
                      "https://www.lectulandia.co/book/page/2/" ];
             books_df := [] |}) /\
  total_pages_of Sample.listing = Ok 2 /\
  exists x w' ks,
    listing_phase SampleDetail.net_two_listings Sample.start
    = Some (x, w') /\
    log w'
    = [] ++ "https://www.lectulandia.co/book/"
        :: concat (imap (fun i k =>
                           replicate k
                             ("https://www.lectulandia.co/book/page/"
                              +:+ pretty (Z.of_nat i + 1) +:+ "/")) ks) /\
    (forall books, x = Ok books -> length ks = 2%nat).
Proof.
  split; [vm_compute; reflexivity|].
  destruct (listing_phase_pages_in_order SampleDetail.net_two_listings
              Sample.start Sample.listing
              [Sample.anchor "/book/page/1/" "1"]
              (Sample.anchor "/book/page/2/" "2")
              (Sample.anchor "/book/page/2/" "Siguiente") 2)
    as (Hpages & x & w' & ks & Hrun & Hlog & _ & _ & Hok & _).
  - reflexivity.
  - reflexivity.
  - vm_compute; reflexivity.
  - vm_compute; lia.
  - split; [exact Hpages|]. exists x, w', ks.
    split; [exact Hrun|]. split; [exact Hlog|exact Hok].
Defined.

(** * Further properties of the listing parser *)

Lemma get_author_step_cases authors line :
  match sd_a line with
  | None => get_author_step authors line = Ok (authors ++ [NaN])
  | Some a =>
      match a_href a with
      | None => get_author_step authors line = Raise TypeError
      | Some h =>
          get_author_step authors line
          = Ok (authors ++ option_list (author_entry line))
      end
  end.
Proof.
  unfold get_author_step, author_entry.
  destruct (sd_a line) as [a|]; simpl; [|done].
  destruct (a_href a) as [h|]; simpl; [|done].
  destruct (contains "autor" h); simpl; [done|by rewrite app_nil_r].
Qed.

Lemma get_author_loop_raises authors lines :
  match get_author_loop authors lines with
  | Ok _ =>
      Forall (fun line => forall a, sd_a line = Some a -> is_Some (a_href a))
             lines
  | Raise e =>
      e = TypeError /\
      Exists (fun line => exists a, sd_a line = Some a /\ a_href a = None)
             lines
  end.
Proof.
  revert authors; induction lines as [|line lines IH]; intros authors;
    cbn [get_author_loop]; [done|].
  pose proof (get_author_step_cases authors line) as Hstep.
  destruct (sd_a line) as [a|] eqn:Ha.
  - destruct (a_href a) as [h|] eqn:Hh; rewrite Hstep; simpl.
    + specialize (IH (authors ++ option_list (author_entry line))).
      destruct (get_author_loop _ lines) as [l|e].
      * constructor; [|done]. intros a' Ha'. rewrite Ha in Ha'.
        injection Ha' as <-. by rewrite Hh.
      * destruct IH as [-> IH]. split; [done|]. by right.
    + split; [done|]. left. by exists a.
  - rewrite Hstep; simpl. specialize (IH (authors ++ [NaN])).
    destruct (get_author_loop _ lines) as [l|e].
    + constructor; [|done]. intros a' Ha'. by rewrite Ha in Ha'.
    + destruct IH as [-> IH]. split; [done|]. by right.
Qed.

(** X1.  The author extractor raises nothing but [TypeError], and it
    raises it exactly when some author-attribution element has a nested
    link without a target. *)
Theorem get_author_raises soup :
  (forall e, get_author soup = Raise e -> e = TypeError) /\
  (get_author soup = Raise TypeError <->
   Exists (fun line => exists a, sd_a line = Some a /\ a_href a = None)
          (subdetails soup)).
Proof.
  unfold get_author.
  pose proof (get_author_loop_raises [] (subdetails soup)) as H.
  destruct (get_author_loop [] (subdetails soup)) as [l|e].
  - split; [done|]. split; [done|].
    intros Hex. apply Exists_exists in Hex as (line & Hin & a & Ha & Hh).
    rewrite Forall_forall in H. destruct (H line Hin a Ha) as [h Hh'].
    congruence.
  - destruct H as [-> Hex]. split; [by intros e [= <-]|done].
Qed.

Lemma get_title_and_website_loop_raises titles websites lines e :
  get_title_and_website_loop titles websites lines = Raise e ->
  e = TypeError /\ Exists (fun line => a_href line = None) lines.
Proof.
  revert titles websites; induction lines as [|line lines IH];
    intros titles websites; simpl; [done|].
  destruct (a_href line) as [h|] eqn:Hh; simpl.
  - intros H. destruct (IH _ _ H) as [-> Hex]. split; [done|by right].
  - intros [= <-]. split; [done|by left].
Qed.

(** X2.  [get_title_and_website] returns two lists with one entry for
    each title link, in the order of the links: the [title] attribute of
    the link (or [None]) and its target after the base URL.  It raises,
    and then [TypeError], only on a page with a title link without a
    target. *)
Theorem get_title_and_website_entries soup :
  match get_title_and_website soup with
  | Ok (titles, websites) =>
      length titles = length (title_links soup) /\
      length websites = length (title_links soup) /\
      forall i line,
        title_links soup !! i = Some line ->
        titles !! i = Some (cell_of_option (a_title line)) /\
        exists h, a_href line = Some h /\
                  websites !! i = Some (base_url +:+ h)
  | Raise e =>
      e = TypeError /\
      Exists (fun line => a_href line = None) (title_links soup)
  end.
Proof.
  destruct (get_title_and_website soup) as [[titles websites]|e] eqn:H.
  - destruct (get_title_and_website_length _ _ _ H) as [Ht Hw].
    split; [done|]. split; [done|].
    intros i line Hi. by eapply get_title_and_website_lookup.
  - by eapply get_title_and_website_loop_raises.
Qed.

(** X3.  A listing page that is fetched and on which the author extractor
    returns a number of entries other than the number of title links
    makes [scrape_page] raise [ValueError]: the columns are not zipped,
    and the rows collected so far are lost to the caller. *)
Theorem scrape_page_mismatch_raises (net : nat -> string -> response)
    df page w k soup authors titles websites :
  (k < 5)%nat ->
  timeouts net w (page_url page) k ->
  net (length (log w) + k)%nat (page_url page) = Page soup ->
  get_author soup = Ok authors ->
  get_title_and_website soup = Ok (titles, websites) ->
  length authors <> length (title_links soup) ->
  scrape_page net df page w
  = Some (Raise ValueError, logged w (replicate (S k) (page_url page))).
Proof.
  intros Hk Hto Hnet Ha Htw Hlen.
  rewrite (scrape_page_fetched net df page w k soup) by done.
  unfold page_frame. rewrite Ha, Htw; simpl.
  destruct (get_title_and_website_length _ _ _ Htw) as [Ht Hw].
  unfold DataFrame.
  replace (length authors =? length titles)%nat with false; [done|].
  symmetry. apply Nat.eqb_neq. congruence.
Qed.

Lemma scrape_page_mismatch_raises_witness :
  scrape_page (fun _ _ => Page Sample.listing_genre_link) [] 1 Sample.start
  = Some (Raise ValueError, logged Sample.start [page_url 1]).
Proof.
  apply (scrape_page_mismatch_raises
           (fun _ _ => Page Sample.listing_genre_link) [] 1 Sample.start 0
           Sample.listing_genre_link []
           [Str "Don Quijote"]
           ["https://www.lectulandia.co/book/don-quijote"]).
  - lia.
  - intros i Hi. lia.
  - reflexivity.
  - vm_compute; reflexivity.
  - vm_compute; reflexivity.
  - simpl. lia.
Defined.

(** * Further properties of the pagination driver *)

(** X4.  With a page count of zero or less [scrape_books] sends no
    request and returns the empty table. *)
Theorem scrape_books_no_pages (net : nat -> string -> response) pages w :
  pages <= 0 ->
  scrape_books net pages w = Some (Ok [], w).
Proof.
  intros Hp. unfold scrape_books. by rewrite range_nil by lia.
Qed.

Lemma scrape_books_no_pages_witness :
  scrape_books Sample.net_timeouts (-3) Sample.start
  = Some (Ok [], Sample.start).
Proof.
  apply (scrape_books_no_pages Sample.net_timeouts (-3) Sample.start). lia.
Defined.

Lemma page_requests_length pages ks :
  Forall (fun k => 1 <= k <= 5)%nat ks ->
  (length ks <= length pages)%nat ->
  (length ks <= length (page_requests pages ks) <= 5 * length ks)%nat.
Proof.
  unfold page_requests. intros Hks; revert pages.
  induction Hks as [|k ks Hk _ IH]; intros [|p pages] Hlen; simpl in *;
    try lia.
  rewrite length_app, length_replicate.
  specialize (IH pages). lia.
Qed.

(** X5.  [scrape_books] returns or raises after at most five requests for
    each page, and after at least one request for each page when it
    returns; it leaves the frame [books_df] of the world as it is. *)
Theorem scrape_books_requests_bounded (net : nat -> string -> response)
    pages w :
  exists x w',
    scrape_books net pages w = Some (x, w') /\
    books_df w' = books_df w /\
    (length (log w') <= length (log w) + 5 * Z.to_nat pages)%nat /\
    (forall books, x = Ok books ->
       (length (log w) + Z.to_nat pages <= length (log w'))%nat).
Proof.
  destruct (for_each_scrape_log net (range 1 (pages + 1)) [] w)
    as (x & w' & ks & Hrun & -> & Hks & Hlen & Hok).
  assert (length (range 1 (pages + 1)) = Z.to_nat pages) as HlenN.
  { unfold range. rewrite length_seqZ. lia. }
  pose proof (page_requests_length _ _ Hks Hlen) as [Hlo Hhi].
  exists x, (logged w (page_requests (range 1 (pages + 1)) ks)).
  split; [done|]. split; [done|]. simpl. rewrite length_app. split.
  - lia.
  - intros books Hx. specialize (Hok books Hx). lia.
Qed.

Lemma for_each_scrape_all_fetched (net : nat -> string -> response)
    (soups : Z -> Soup) (frames : Z -> list ListingRow) pages df w :
  (forall i p, pages !! i = Some p ->
     net (length (log w) + i)%nat (page_url p) = Page (soups p) /\
     page_frame (soups p) = Ok (frames p)) ->
  for_each (scrape_page net) df pages w
  = Some (Ok (df ++ concat (frames <$> pages)),
          logged w (page_url <$> pages)).
Proof.
  revert df w; induction pages as [|p pages IH]; intros df w Hall.
  - simpl. by rewrite app_nil_r, logged_nil.
  - cbn [for_each].
    destruct (Hall 0%nat p eq_refl) as [Hnet Hframe].
    erewrite io_bind_ok.
    2:{ rewrite (scrape_page_fetched net df p w 0 (soups p));
          [by rewrite Hframe|lia|intros i Hi; lia|done]. }
    rewrite IH.
    + rewrite logged_logged. simpl. by rewrite <- app_assoc.
    + intros i q Hq. simpl. rewrite length_app; simpl.
      replace (length (log w) + 1 + i)%nat
        with (length (log w) + S i)%nat by lia.
      by apply Hall.
Qed.

(** X6.  When every page is fetched at the first attempt, [scrape_books]
    sends one request for each page, in the order of the page numbers,
    and returns the rows of the pages in that order: the rows of page 1,
    then those of page 2, and so on. *)
Theorem scrape_books_all_fetched (net : nat -> string -> response)
    (soups : Z -> Soup) (frames : Z -> list ListingRow) pages w :
  (forall i p, range 1 (pages + 1) !! i = Some p ->
     net (length (log w) + i)%nat (page_url p) = Page (soups p) /\
     page_frame (soups p) = Ok (frames p)) ->
  scrape_books net pages w
  = Some (Ok (concat (frames <$> range 1 (pages + 1))),
          logged w (page_url <$> range 1 (pages + 1))).
Proof.
  intros Hall. unfold scrape_books.
  by rewrite (for_each_scrape_all_fetched net soups frames).
Qed.

Lemma scrape_books_all_fetched_witness :
  scrape_books (fun _ _ => Page Sample.listing) 2 Sample.start
  = Some (Ok (Sample.listing_rows ++ Sample.listing_rows),
          logged Sample.start [page_url 1; page_url 2]).
Proof.
  rewrite (scrape_books_all_fetched (fun _ _ => Page Sample.listing)
             (fun _ => Sample.listing) (fun _ => Sample.listing_rows)
             2 Sample.start).
  - vm_compute; reflexivity.
  - intros i p _. split; [reflexivity|vm_compute; reflexivity].
Defined.

(** * Further properties of the detail path *)

Lemma same_listing_refl r : same_listing r r.
Proof. by repeat split. Qed.

Lemma same_listing_trans r1 r2 r3 :
  same_listing r1 r2 -> same_listing r2 r3 -> same_listing r1 r3.
Proof. intros (? & ? & ?) (? & ? & ?). repeat split; congruence. Qed.

Lemma same_details_refl r : same_details r r.
Proof. by repeat split. Qed.

Lemma same_details_trans r1 r2 r3 :
  same_details r1 r2 -> same_details r2 r3 -> same_details r1 r3.
Proof.
  intros (H1 & ? & ?) (H2 & ? & ?).
  split; [by eapply same_listing_trans|]. split; congruence.
Qed.

Lemma row_kept_refl P row df : (forall r, P r r) -> row_kept P row df df.
Proof. intros HP. split; [done|]. split; [done|]. intros r Hr. by exists r. Qed.

Lemma row_kept_trans P row df1 df2 df3 :
  (forall r1 r2 r3, P r1 r2 -> P r2 r3 -> P r1 r3) ->
  row_kept P row df1 df2 -> row_kept P row df2 df3 ->
  row_kept P row df1 df3.
Proof.
  intros HP (Hl1 & Ho1 & Hr1) (Hl2 & Ho2 & Hr2).
  split; [congruence|]. split.
  - intros j Hj. by rewrite Ho2, Ho1.
  - intros r Hr. destruct (Hr1 r Hr) as (r2 & Hr2' & Hk1).
    destruct (Hr2 r2 Hr2') as (r3 & Hr3 & Hk2).
    exists r3. split; [done|]. by eapply HP.
Qed.

Lemma row_kept_alter P row df f :
  (forall r, P r (f r)) -> row_kept P row df (alter f row df).
Proof.
  intros Hf. split; [by rewrite length_alter|]. split.
  - intros j Hj. by rewrite list_lookup_alter_ne.
  - intros r Hr. exists (f r). split; [|done].
    by rewrite list_lookup_alter_eq, Hr.
Qed.

Lemma row_kept_weaken (P Q : BookRecord -> BookRecord -> Prop) row df df' :
  (forall r r', P r r' -> Q r r') ->
  row_kept P row df df' -> row_kept Q row df df'.
Proof.
  intros HPQ (Hl & Ho & Hr). split; [done|]. split; [done|].
  intros r Hrow. destruct (Hr r Hrow) as (r' & Hr' & HP).
  exists r'. split; [done|by apply HPQ].
Qed.

(** The columns of the listing are those of before. *)
Lemma row_kept_listing_columns row df df' :
  row_kept same_listing row df df' ->
  author <$> df' = author <$> df /\
  title <$> df' = title <$> df /\
  website <$> df' = website <$> df.
Proof.
  intros (Hl & Ho & Hr).
  assert (forall j,
            match df !! j, df' !! j with
            | Some r, Some r' => same_listing r r'
            | None, None => True
            | _, _ => False
            end) as Hall.
  { intros j. destruct (decide (j = row)) as [->|Hj].
    - destruct (df !! row) as [r|] eqn:Hrow.
      + by destruct (Hr r eq_refl) as (r' & -> & HP).
      + apply lookup_ge_None in Hrow. rewrite <- Hl in Hrow.
        apply lookup_ge_None in Hrow. by rewrite Hrow.
    - rewrite (Ho j Hj). destruct (df !! j); [apply same_listing_refl|done]. }
  repeat split; apply list_eq; intros j; rewrite !list_lookup_fmap;
    specialize (Hall j);
    destruct (df !! j), (df' !! j); simpl in *; try done;
    destruct Hall as (? & ? & ?); congruence.
Qed.

Lemma classify_link_result row link w :
  classify_link row tt link w
  = if is_download link then
      match a_href link with
      | Some h =>
          Some (Ok tt,
                updated w row
                  (if contains "epub" (lower (a_text link))
                   then set_epub (Str (base_url +:+ h))
                   else set_pdf (Str (base_url +:+ h))))
      | None => Some (Raise TypeError, w)
      end
    else Some (Ok tt, w).
Proof.
  unfold classify_link, is_download, mbind, io_bind, lift, loc_set.
  destruct (contains "epub" (lower (a_text link))); simpl.
  { by destruct (a_href link). }
  destruct (contains "pdf" (lower (a_text link))); simpl; [|done].
  by destruct (a_href link).
Qed.

(** The loop over the download links changes nothing but the epub and the
    pdf of the row, and it raises, [TypeError], exactly when some link it
    stores has no target. *)
Lemma for_each_classify_kept row links w :
  exists x w',
    for_each (classify_link row) tt links w = Some (x, w') /\
    log w' = log w /\
    row_kept same_details row (books_df w) (books_df w') /\
    ((Forall (fun link => ~ broken_download link) links /\ x = Ok tt) \/
     (Exists broken_download links /\ x = Raise TypeError)).
Proof.
  revert w; induction links as [|link links IH]; intros w.
  - exists (Ok tt), w. split; [done|]. split; [done|].
    split; [apply row_kept_refl, same_details_refl|]. left. by split.
  - cbn [for_each]. unfold mbind, io_bind.
    rewrite classify_link_result.
    destruct (is_download link) eqn:Hd.
    + destruct (a_href link) as [h|] eqn:Hh.
      * match goal with
        | |- context [updated w row ?f] =>
            destruct (IH (updated w row f))
              as (x & w' & -> & Hlog & Hkept & Hx);
            assert (row_kept same_details row (books_df w)
                      (books_df (updated w row f))) as Hstep
        end.
        { apply row_kept_alter. intros r.
          by destruct (contains "epub" (lower (a_text link))). }
        exists x, w'. split; [done|]. split; [done|].
        split; [by eapply row_kept_trans;
                  [apply same_details_trans|..]|].
        destruct Hx as [[Hall ->]|[Hex ->]]; [left|right]; split;
          try done.
        -- constructor; [|done]. intros [_ Hb]. congruence.
        -- by right.
      * exists (Raise TypeError), w. split; [done|]. split; [done|].
        split; [apply row_kept_refl, same_details_refl|].
        right. split; [|done]. by left.
    + destruct (IH w) as (x & w' & -> & Hlog & Hkept & Hx).
      exists x, w'. split; [done|]. split; [done|]. split; [done|].
      destruct Hx as [[Hall ->]|[Hex ->]]; [left|right]; split; try done.
      * constructor; [|done]. intros [Hb _]. congruence.
      * by right.
Qed.

Section details_full_page.
Variable net : nat -> string -> response.

(** An attempt on a page with the three containers. *)
Lemma details_attempt_full_page row w r s d g links :
  books_df w !! row = Some r ->
  net (length (log w)) (website r) = Page s ->
  sinopsis s = Some d ->
  genero s = Some g ->
  downloadContainer s = Some links ->
  exists x w' r',
    details_attempt net row w = Some (x, w') /\
    log w' = log w ++ [website r] /\
    length (books_df w') = length (books_df w) /\
    (forall j, j <> row -> books_df w' !! j = books_df w !! j) /\
    books_df w' !! row = Some r' /\
    same_listing r r' /\
    description r' = Str (strip d) /\
    genre r' = Str (join " / " (a_text <$> g)) /\
    ((Forall (fun link => ~ broken_download link) links /\ x = Ok tt) \/
     (Exists broken_download links /\ x = Raise TypeError)).
Proof.
  intros Hr Hnet Hd Hg Hl.
  pose proof (details_attempt_cases net row w) as Hc.
  rewrite Hr, Hnet in Hc.
  pose proof (parse_details_cases row s (logged w [website r])) as Hp.
  rewrite Hd, Hg, Hl in Hp. cbv zeta in Hp. rewrite Hc, Hp.
  match goal with
  | |- context [for_each _ _ _ ?w2] =>
      destruct (for_each_classify_kept row links w2)
        as (x & w' & -> & Hlog & (Hlen & Hother & Hrow) & Hx);
      assert (books_df w2 !! row
              = Some (set_genre (Str (join " / " (a_text <$> g)))
                        (set_description (Str (strip d)) r))) as Hr2
  end.
  { simpl. by rewrite !list_lookup_alter_eq, Hr. }
  destruct (Hrow _ Hr2) as (r' & Hr' & Hlist & Hdesc & Hgenre).
  exists x, w', r'. split; [done|]. split; [by rewrite Hlog|].
  split; [by rewrite Hlen; simpl; rewrite !length_alter|].
  split.
  { intros j Hj. rewrite (Hother j Hj). simpl.
    by rewrite !list_lookup_alter_ne. }
  split; [done|].
  split; [by destruct Hlist as (? & ? & ?)|].
  by repeat split.
Qed.

End details_full_page.

(** X7.  When the first request of a row's detail page gives a page with
    the three containers, and every download link that is stored has a
    target, [get_book_details] returns after that one request: the
    description of the row is the text of the description container
    without the blanks around it, its genre is the texts of the genre
    links joined by " / ", and its author, title and website, the other
    rows and the number of rows are as before. *)
Theorem get_book_details_fills_row (net : nat -> string -> response)
    row w r s d g links :
  books_df w !! row = Some r ->
  net (length (log w)) (website r) = Page s ->
  sinopsis s = Some d ->
  genero s = Some g ->
  downloadContainer s = Some links ->
  Forall (fun link => ~ broken_download link) links ->
  exists w' r',
    get_book_details net row w = Some (Ok tt, w') /\
    log w' = log w ++ [website r] /\
    length (books_df w') = length (books_df w) /\
    (forall j, j <> row -> books_df w' !! j = books_df w !! j) /\
    books_df w' !! row = Some r' /\
    author r' = author r /\ title r' = title r /\
    website r' = website r /\
    description r' = Str (strip d) /\
    genre r' = Str (join " / " (a_text <$> g)).
Proof.
  intros Hr Hnet Hd Hg Hl Hall.
  destruct (details_attempt_full_page net row w r s d g links)
    as (x & w' & r' & Hatt & Hlog & Hlen & Hother & Hr' & Hlist & Hdesc
        & Hgenre & Hx); try done.
  destruct Hx as [[_ ->]|[Hex _]].
  2:{ apply Exists_exists in Hex as (link & Hin & Hb).
      rewrite Forall_forall in Hall. by destruct (Hall link Hin). }
  exists w', r'. destruct Hlist as (? & ? & ?).
  repeat (split; [done|]). split; [|done].
  unfold get_book_details, max_attempts.
  by apply details_loop_done; [lia|].
Qed.

Lemma get_book_details_fills_row_witness :
  exists w' r',
    get_book_details SampleDetail.net_full 0 Sample.enriching
    = Some (Ok tt, w') /\
    books_df w' !! 0%nat = Some r' /\
    description r' = Str "Un hidalgo pierde el juicio." /\
    genre r' = Str "Novela / Aventuras".
Proof.
  destruct (get_book_details_fills_row SampleDetail.net_full 0
              Sample.enriching Sample.quijote SampleDetail.full
              " Un hidalgo pierde el juicio. "
              [ Sample.anchor "/genero/novela" "Novela";
                Sample.anchor "/genero/aventuras" "Aventuras" ]
              [ Sample.anchor "/download/1.epub" "Descargar EPUB";
                Sample.anchor "/download/1.pdf" "Descargar PDF";
                Sample.anchor "/foro" "Foro" ])
    as (w' & r' & Hrun & _ & _ & _ & Hr' & _ & _ & _ & Hd & Hg);
    try reflexivity.
  - repeat constructor; intros [_ Hb]; discriminate Hb.
  - exists w', r'. split; [exact Hrun|]. split; [exact Hr'|].
    split; [exact Hd|exact Hg].
Defined.

(** X8.  When the first request of a row's detail page gives a page with
    the three containers on which a download link that is stored has no
    target, [get_book_details] raises [TypeError] after that one request:
    the error is not retried, and the description and the genre read
    from the page stay in the row. *)
Theorem get_book_details_broken_link_raises
    (net : nat -> string -> response) row w r s d g links :
  books_df w !! row = Some r ->
  net (length (log w)) (website r) = Page s ->
  sinopsis s = Some d ->
  genero s = Some g ->
  downloadContainer s = Some links ->
  Exists broken_download links ->
  exists w' r',
    get_book_details net row w = Some (Raise TypeError, w') /\
    log w' = log w ++ [website r] /\
    books_df w' !! row = Some r' /\
    description r' = Str (strip d) /\
    genre r' = Str (join " / " (a_text <$> g)).
Proof.
  intros Hr Hnet Hd Hg Hl Hex.
  destruct (details_attempt_full_page net row w r s d g links)
    as (x & w' & r' & Hatt & Hlog & Hlen & Hother & Hr' & Hlist & Hdesc
        & Hgenre & Hx); try done.
  destruct Hx as [[Hall _]|[_ ->]].
  { apply Exists_exists in Hex as (link & Hin & Hb).
    rewrite Forall_forall in Hall. by destruct (Hall link Hin). }
  exists w', r'. split; [|done].
  unfold get_book_details, max_attempts.
  by apply details_loop_uncaught; [lia| |].
Qed.

Lemma get_book_details_broken_link_raises_witness :
  exists w' r',
    get_book_details SampleDetail.net_broken 0 Sample.enriching
    = Some (Raise TypeError, w') /\
    log w' = [website Sample.quijote] /\
    books_df w' !! 0%nat = Some r' /\
    description r' = Str "Un hidalgo pierde el juicio.".
Proof.
  destruct (get_book_details_broken_link_raises SampleDetail.net_broken 0
              Sample.enriching Sample.quijote SampleDetail.broken
              " Un hidalgo pierde el juicio. "
              [ Sample.anchor "/genero/novela" "Novela" ]
              [ Sample.anchor "/download/1.epub" "Descargar EPUB";
                {| a_href := None; a_title := None;
                   a_text := "Descargar PDF" |} ])
    as (w' & r' & Hrun & Hlog & Hr' & Hd & _); try reflexivity.
  - right. left. split; reflexivity.
  - exists w', r'. split; [exact Hrun|]. split; [exact Hlog|].
    split; [exact Hr'|exact Hd].
Defined.

(** X9.  For a label that is not in the index of the frame,
    [get_book_details] raises [KeyError] at once: no request is sent, no
    attempt is counted, and the frame is as it was. *)
Theorem get_book_details_unknown_row (net : nat -> string -> response)
    row w :
  (length (books_df w) <= row)%nat ->
  get_book_details net row w = Some (Raise KeyError, w).
Proof.
  intros Hrow. apply get_book_details_missing_row.
  by apply lookup_ge_None.
Qed.

Lemma get_book_details_unknown_row_witness :
  get_book_details SampleDetail.net_full 1 Sample.enriching
  = Some (Raise KeyError, Sample.enriching).
Proof.
  apply (get_book_details_unknown_row SampleDetail.net_full 1
           Sample.enriching).
  simpl. lia.
Defined.

Section details_any_outcome.
Variable net : nat -> string -> response.

(** Whatever an attempt does, it keeps the listing columns and the other
    rows, and it sends one request to the row's website. *)
Lemma details_attempt_kept row w :
  exists x w',
    details_attempt net row w = Some (x, w') /\
    row_kept same_listing row (books_df w) (books_df w') /\
    match books_df w !! row with
    | Some r => log w' = log w ++ [website r]
    | None => w' = w /\ x = Raise KeyError
    end.
Proof.
  pose proof (details_attempt_cases net row w) as Hc.
  destruct (books_df w !! row) as [r|] eqn:Hr.
  2:{ exists (Raise KeyError), w. split; [done|].
      split; [apply row_kept_refl, same_listing_refl|done]. }
  destruct (net (length (log w)) (website r)) as [e|s].
  { exists (Raise e), (logged w [website r]). split; [done|].
    split; [apply row_kept_refl, same_listing_refl|done]. }
  rewrite Hc.
  pose proof (parse_details_cases row s (logged w [website r])) as Hp.
  destruct (sinopsis s) as [d|].
  2:{ eexists _, _. split; [exact Hp|].
      split; [apply row_kept_refl, same_listing_refl|done]. }
  destruct (genero s) as [g|].
  2:{ eexists _, _. split; [exact Hp|].
      split; [by apply row_kept_alter|done]. }
  assert (row_kept same_listing row (books_df w)
            (alter (set_genre (Str (join " / " (a_text <$> g)))) row
               (alter (set_description (Str (strip d))) row (books_df w))))
    as Hstep.
  { eapply row_kept_trans; [apply same_listing_trans|..];
      by apply row_kept_alter. }
  destruct (downloadContainer s) as [links|].
  2:{ eexists _, _. split; [exact Hp|]. split; [exact Hstep|done]. }
  rewrite Hp.
  match goal with
  | |- context [for_each _ _ _ ?w2] =>
      destruct (for_each_classify_kept row links w2)
        as (x & w' & -> & Hlog & Hkept & _)
  end.
  exists x, w'. split; [done|]. split; [|by rewrite Hlog].
  eapply row_kept_trans; [apply same_listing_trans|exact Hstep|].
  eapply row_kept_weaken; [|exact Hkept]. by intros r1 r2 [? _].
Qed.

Lemma details_loop_kept fuel row a w :
  (6 <= S fuel + a)%nat ->
  exists x w' k,
    details_loop net (S fuel) row a false w = Some (x, w') /\
    (k <= 5 - a)%nat /\
    (a < 5 -> is_Some (books_df w !! row) -> 1 <= k)%nat /\
    row_kept same_listing row (books_df w) (books_df w') /\
    match books_df w !! row with
    | Some r => log w' = log w ++ replicate k (website r)
    | None => w' = w
    end.
Proof.
  revert a w; induction fuel as [|fuel IH]; intros a w Hf.
  - exists (Ok tt), w, 0%nat.
    split; [|split; [lia|split; [lia|split;
      [apply row_kept_refl, same_listing_refl|]]]].
    + cbn [details_loop]. unfold max_attempts.
      replace (a <? 5)%nat with false; [done|].
      symmetry. apply Nat.ltb_ge. lia.
    + destruct (books_df w !! row); [by rewrite app_nil_r|done].
  - destruct (decide (a < 5)%nat) as [Ha|Ha].
    2:{ exists (Ok tt), w, 0%nat.
        split; [|split; [lia|split; [lia|split;
          [apply row_kept_refl, same_listing_refl|]]]].
        + cbn [details_loop]. unfold max_attempts.
          replace (a <? 5)%nat with false; [done|].
          symmetry. apply Nat.ltb_ge. lia.
        + destruct (books_df w !! row); [by rewrite app_nil_r|done]. }
    destruct (details_attempt_kept row w) as (x & w1 & Hatt & Hkept & Hlog).
    destruct x as [[]|e].
    + exists (Ok tt), w1, 1%nat.
      rewrite (details_loop_done net _ _ _ _ w1) by done.
      split; [done|]. split; [lia|]. split; [lia|]. split; [done|].
      destruct (books_df w !! row); [done|by destruct Hlog].
    + destruct (is_RequestException e || is_AttributeError e) eqn:He.
      * rewrite (details_loop_caught net _ _ _ _ e w1) by done.
        destruct (IH (S a) w1)
          as (x & w' & k & -> & Hk & _ & Hkept' & Hlog'); [lia|].
        destruct (books_df w !! row) as [r|] eqn:Hr.
        2:{ destruct Hlog as [_ [= ->]]. simpl in He. discriminate He. }
        destruct Hkept as (Hl1 & Ho1 & Hr1).
        destruct (Hr1 r Hr) as (r1 & Hrow1 & Hsame).
        rewrite Hrow1 in Hlog'.
        exists x, w', (S k). split; [done|]. split; [lia|].
        split; [lia|]. split.
        -- eapply row_kept_trans; [apply same_listing_trans| |exact Hkept'].
           by split.
        -- rewrite Hlog', Hlog, <- app_assoc.
           destruct Hsame as (_ & _ & ->). done.
      * exists (Raise e), w1, 1%nat.
        rewrite (details_loop_uncaught net _ _ _ _ e w1) by done.
        split; [done|]. split; [lia|]. split; [lia|]. split; [done|].
        destruct (books_df w !! row); [done|by destruct Hlog].
Qed.

Lemma get_book_details_kept row w :
  exists x w' k,
    get_book_details net row w = Some (x, w') /\
    (k <= 5)%nat /\
    (is_Some (books_df w !! row) -> 1 <= k)%nat /\
    row_kept same_listing row (books_df w) (books_df w') /\
    match books_df w !! row with
    | Some r => log w' = log w ++ replicate k (website r)
    | None => w' = w
    end.
Proof.
  destruct (details_loop_kept 5 row 0 w)
    as (x & w' & k & Hrun & Hk & Hk1 & Hkept & Hlog); [lia|].
  exists x, w', k. split; [done|]. split; [lia|].
  split; [intros ?; apply Hk1; [lia|done]|done].
Qed.

End details_any_outcome.

(** X10.  Whatever the network answers, [get_book_details] returns or
    raises after at most five requests, all of them to the website of
    the row; the author, title and website columns of the frame are as
    before the call (so no row is added, dropped or moved), and the rows
    other than [row] are as before in every column. *)
Theorem get_book_details_keeps_listing (net : nat -> string -> response)
    row w :
  exists x w' k,
    get_book_details net row w = Some (x, w') /\
    (k <= 5)%nat /\
    (forall r, books_df w !! row = Some r ->
               log w' = log w ++ replicate k (website r)) /\
    author <$> books_df w' = author <$> books_df w /\
    title <$> books_df w' = title <$> books_df w /\
    website <$> books_df w' = website <$> books_df w /\
    (forall j, j <> row -> books_df w' !! j = books_df w !! j).
Proof.
  destruct (details_loop_kept net 5 row 0 w)
    as (x & w' & k & Hrun & Hk & _ & Hkept & Hlog); [lia|].
  exists x, w', k. split; [done|]. split; [lia|]. split.
  { intros r Hr. by rewrite Hr in Hlog. }
  destruct (row_kept_listing_columns _ _ _ Hkept) as (Ha & Ht & Hw).
  repeat (split; [done|]). by destruct Hkept as (_ & Ho & _).
Qed.

(** X11.  A successful attempt ends the retries: when [k < 5] attempts
    fail with errors the loop catches and the next attempt succeeds,
    [get_book_details] returns in the world that attempt leaves, without
    another request. *)
Theorem get_book_details_retry_succeeds (net : nat -> string -> response)
    row w k w1 w2 :
  (k < 5)%nat ->
  failed_attempts net row k w = Some w1 ->
  details_attempt net row w1 = Some (Ok tt, w2) ->
  get_book_details net row w = Some (Ok tt, w2).
Proof.
  intros Hk Hfail Hok. unfold get_book_details, max_attempts.
  replace 6%nat with (k + S (S (4 - k)))%nat by lia.
  rewrite (details_loop_failed net k _ row 0 w w1) by (done || lia).
  by apply details_loop_done; [lia|].
Qed.

Lemma get_book_details_retry_succeeds_witness :
  exists w2,
    get_book_details SampleDetail.net_full_at_third 0 Sample.enriching
    = Some (Ok tt, w2) /\
    length (log w2) = 3%nat.
Proof.
  eexists. split.
  - apply (get_book_details_retry_succeeds SampleDetail.net_full_at_third
             0 Sample.enriching 2
             (logged Sample.enriching
                (replicate 2 (website Sample.quijote)))).
    + lia.
    + vm_compute; reflexivity.
    + vm_compute; reflexivity.
  - reflexivity.
Defined.

(** X12.  Of several download links of one kind the last one counts:
    when the loop over the links [links] returns and an EPUB link with a
    target follows them, the epub of the row is the resolved URL of that
    link, whatever the links before it stored. *)
Theorem classify_last_epub_wins row links link w w1 r h :
  books_df w !! row = Some r ->
  for_each (classify_link row) tt links w = Some (Ok tt, w1) ->
  contains "epub" (lower (a_text link)) = true ->
  a_href link = Some h ->
  exists w' r',
    for_each (classify_link row) tt (links ++ [link]) w
    = Some (Ok tt, w') /\
    books_df w' !! row = Some r' /\
    epub r' = Str (base_url +:+ h).
Proof.
  intros Hr Hrun He Hh.
  destruct (for_each_classify_kept row links w)
    as (x & w1' & Hrun' & _ & (_ & _ & Hrow) & _).
  rewrite Hrun in Hrun'. injection Hrun' as <- <-.
  destruct (Hrow r Hr) as (r1 & Hr1 & _).
  exists (updated w1 row (set_epub (Str (base_url +:+ h)))),
    (set_epub (Str (base_url +:+ h)) r1).
  split; [|split; [|done]].
  - rewrite (for_each_app _ _ _ _ _ _ _ Hrun). cbn [for_each].
    erewrite io_bind_ok; [|by apply classify_link_epub]. done.
  - simpl. by rewrite list_lookup_alter_eq, Hr1.
Qed.

Lemma classify_last_epub_wins_witness :
  exists w' r',
    for_each (classify_link 0) tt
      ([ Sample.anchor "/download/1.epub" "Descargar EPUB" ]
       ++ [ Sample.anchor "/download/2.epub" "EPUB (ilustrado)" ])
      Sample.enriching
    = Some (Ok tt, w') /\
    books_df w' !! 0%nat = Some r' /\
    epub r' = Str (base_url +:+ "/download/2.epub").
Proof.
  apply (classify_last_epub_wins 0
           [ Sample.anchor "/download/1.epub" "Descargar EPUB" ]
           (Sample.anchor "/download/2.epub" "EPUB (ilustrado)")
           Sample.enriching
           (updated Sample.enriching 0
              (set_epub (Str (base_url +:+ "/download/1.epub"))))
           Sample.quijote "/download/2.epub");
    vm_compute; reflexivity.
Defined.

(** * Further properties of the enrichment driver and of the main block *)

Lemma row_requests_cons u websites k ks :
  row_requests (u :: websites) (k :: ks)
  = replicate k u ++ row_requests websites ks.
Proof. done. Qed.

Lemma row_requests_length websites ks :
  Forall (fun k => 1 <= k <= 5)%nat ks ->
  (length ks <= length websites)%nat ->
  (length ks <= length (row_requests websites ks) <= 5 * length ks)%nat.
Proof.
  unfold row_requests. intros Hks; revert websites.
  induction Hks as [|k ks Hk _ IH]; intros [|u websites] Hlen; simpl in *;
    try lia.
  rewrite length_app, length_replicate.
  specialize (IH websites). lia.
Qed.

Section enrich.
Variable net : nat -> string -> response.

Lemma enrich_loop_kept n lo w :
  (lo + n)%nat = length (books_df w) ->
  exists x w' ks,
    for_each (fun _ index => get_book_details net index) tt (seq lo n) w
    = Some (x, w') /\
    author <$> books_df w' = author <$> books_df w /\
    title <$> books_df w' = title <$> books_df w /\
    website <$> books_df w' = website <$> books_df w /\
    log w' = log w ++ row_requests (drop lo (website <$> books_df w)) ks /\
    Forall (fun k => 1 <= k <= 5)%nat ks /\
    (length ks <= n)%nat /\
    (x = Ok tt -> length ks = n).
Proof.
  revert lo w; induction n as [|n IH]; intros lo w Hlen.
  - exists (Ok tt), w, []. split; [done|]. do 3 (split; [done|]).
    split; [|by repeat split].
    unfold row_requests. by rewrite zip_with_nil_r, app_nil_r.
  - cbn [seq for_each]. unfold mbind, io_bind.
    destruct (lookup_lt_is_Some_2 (books_df w) lo) as [r Hr]; [lia|].
    destruct (get_book_details_kept net lo w)
      as (x & w1 & k & -> & Hk & Hk1 & Hkept & Hlog).
    rewrite Hr in Hlog.
    destruct (row_kept_listing_columns _ _ _ Hkept) as (Ha & Ht & Hw).
    assert (drop lo (website <$> books_df w)
            = website r :: drop (S lo) (website <$> books_df w)) as Hdrop.
    { apply drop_S. by rewrite list_lookup_fmap, Hr. }
    assert (1 <= k <= 5)%nat as Hk15.
    { split; [apply Hk1; by exists r|lia]. }
    destruct x as [[]|e].
    + destruct (IH (S lo) w1)
        as (x & w' & ks & -> & Ha' & Ht' & Hw' & Hlog' & Hks & Hlks & Hok).
      { destruct Hkept as (-> & _). lia. }
      exists x, w', (k :: ks). split; [done|].
      split; [congruence|]. split; [congruence|]. split; [congruence|].
      split.
      { rewrite Hlog', Hlog, Hw, Hdrop, row_requests_cons.
        by rewrite <- app_assoc. }
      split; [by constructor|]. split; [simpl; lia|].
      intros Hx. simpl. f_equal. by apply Hok.
    + exists (Raise e), w1, [k]. split; [done|].
      do 3 (split; [done|]). split.
      { rewrite Hlog, Hdrop. unfold row_requests; simpl.
        by rewrite zip_with_nil_r; simpl; rewrite app_nil_r. }
      split; [by constructor|]. split; [simpl; lia|done].
Qed.

End enrich.

(** X13.  Whatever the network answers, [enrich_book_data] returns or
    raises with the author, title and website columns of the frame as
    they were: the enrichment adds, drops and moves no row, and it
    changes no listing column. *)
Theorem enrich_book_data_keeps_listing (net : nat -> string -> response) w :
  exists x w',
    enrich_book_data net w = Some (x, w') /\
    author <$> books_df w' = author <$> books_df w /\
    title <$> books_df w' = title <$> books_df w /\
    website <$> books_df w' = website <$> books_df w.
Proof.
  destruct (enrich_loop_kept net (length (books_df w)) 0 w)
    as (x & w' & ks & Hrun & Ha & Ht & Hw & _); [done|].
  exists x, w'. split; [|done].
  unfold enrich_book_data, mbind, io_bind, get_books_df. exact Hrun.
Qed.

(** X14.  [enrich_book_data] requests the websites of the rows in the
    order of the rows, between one and five times each, and nothing
    else; when it returns, every row was requested, so that the number
    of requests lies between the number of rows and five times that
    number. *)
Theorem enrich_book_data_requests_in_row_order
    (net : nat -> string -> response) w :
  exists x w' ks,
    enrich_book_data net w = Some (x, w') /\
    log w' = log w ++ row_requests (website <$> books_df w) ks /\
    Forall (fun k => 1 <= k <= 5)%nat ks /\
    (length ks <= length (books_df w))%nat /\
    (x = Ok tt ->
     length ks = length (books_df w) /\
     (length (log w) + length (books_df w) <= length (log w')
      <= length (log w) + 5 * length (books_df w))%nat).
Proof.
  destruct (enrich_loop_kept net (length (books_df w)) 0 w)
    as (x & w' & ks & Hrun & _ & _ & _ & Hlog & Hks & Hlen & Hok); [done|].
  rewrite drop_0 in Hlog.
  exists x, w', ks. split.
  { unfold enrich_book_data, mbind, io_bind, get_books_df. exact Hrun. }
  split; [done|]. split; [done|]. split; [done|].
  intros Hx. specialize (Hok Hx). split; [done|].
  rewrite Hlog, length_app.
  pose proof (row_requests_length (website <$> books_df w) ks Hks) as Hb.
  rewrite length_fmap in Hb. lia.
Qed.

(** X15.  Once the listing phase has returned the rows [books], the main
    block ends, whatever the enrichment meets, with a frame that has the
    authors, titles and websites of [books], row for row. *)
Theorem main_keeps_listing_rows (net : nat -> string -> response)
    w books w1 :
  listing_phase net w = Some (Ok books, w1) ->
  exists x w',
    main net w = Some (x, w') /\
    author <$> books_df w' = l_author <$> books /\
    title <$> books_df w' = l_title <$> books /\
    website <$> books_df w' = l_website <$> books.
Proof.
  intros Hlist. unfold main.
  erewrite io_bind_ok; [|exact Hlist].
  unfold mbind, io_bind, set_books_df.
  destruct (enrich_book_data_keeps_listing net
              {| log := log w1; books_df := add_placeholders <$> books |})
    as (x & w' & -> & Ha & Ht & Hw).
  exists x, w'. split; [done|].
  rewrite Ha, Ht, Hw; simpl. rewrite <- !list_fmap_compose.
  done.
Qed.

Lemma main_keeps_listing_rows_witness :
  exists x w',
    main SampleDetail.net_two_listings Sample.start = Some (x, w') /\
    title <$> books_df w' = l_title <$> Sample.listing_rows.
Proof.
  destruct (main_keeps_listing_rows SampleDetail.net_two_listings
              Sample.start Sample.listing_rows
              (logged Sample.start
                 ([INITIAL_URL; page_url 1] ++ replicate 5 (page_url 2))))
    as (x & w' & Hrun & _ & Ht & _).
  - vm_compute; reflexivity.
  - exists x, w'. split; [exact Hrun|exact Ht].
Defined.

(** X16.  When the first listing page has fewer than two pagination
    links, the main block raises [IndexError] after the one request of
    that page: no listing page is scraped, and the frame is as it was. *)
Theorem main_few_pagination_links (net : nat -> string -> response)
    w soup :
  net (length (log w)) INITIAL_URL = Page soup ->
  (length (page_numbers soup) < 2)%nat ->
  main net w = Some (Raise IndexError, logged w [INITIAL_URL]).
Proof.
  intros Hnet Hlen. unfold main. apply io_bind_raise.
  unfold listing_phase.
  erewrite io_bind_ok; [|unfold requests_get; by rewrite Hnet].
  apply io_bind_raise. unfold lift, total_pages_of, index_neg2.
  destruct (page_numbers soup) as [|a [|b l]]; simpl in *; try done. lia.
Qed.

Lemma main_few_pagination_links_witness :
  main (fun _ _ => Page SampleDetail.one_link) Sample.start
  = Some (Raise IndexError, logged Sample.start [INITIAL_URL]).
Proof.
  apply (main_few_pagination_links (fun _ _ => Page SampleDetail.one_link)
           Sample.start SampleDetail.one_link).
  - reflexivity.
  - simpl. lia.
Defined.

(** X17.  The request of the first listing page is not retried: when it
    fails, with a timeout or with any other error, the main block ends
    with that error after the one request. *)
Theorem main_first_request_not_retried (net : nat -> string -> response)
    w e :
  net (length (log w)) INITIAL_URL = Fails e ->
  main net w = Some (Raise e, logged w [INITIAL_URL]).
Proof.
  intros Hnet. unfold main. apply io_bind_raise.
  unfold listing_phase. apply io_bind_raise.
  unfold requests_get. by rewrite Hnet.
Qed.

Lemma main_first_request_not_retried_witness :
  main Sample.net_timeouts Sample.start
  = Some (Raise Timeout, logged Sample.start [INITIAL_URL]).
Proof.
  apply (main_first_request_not_retried Sample.net_timeouts Sample.start
           Timeout).
  reflexivity.
Defined.

(** * The page count as a numeral, and the blanks of Unicode *)

(** X18.  The page count is read as a numeral: when the text of the
    second-to-last pagination link is, with its dots taken out, the
    decimal numeral of [n], of at most 4300 characters (the bound of
    [int] on the number of digits), the number of pages is [n]. *)
Theorem total_pages_of_numeral soup pre a last (n : Z) :
  page_numbers soup = pre ++ [a; last] ->
  without_dots (a_text a) = pretty n ->
  (String.length (pretty n) <= 4300)%nat ->
  total_pages_of soup = Ok n.
Proof.
  intros Hlinks Htext Hdigits. unfold total_pages_of.
  rewrite Hlinks, index_neg2_app; simpl.
  rewrite remove_dots_without_dots, Htext. by apply py_int_pretty.
Qed.

Lemma total_pages_of_numeral_witness :
  total_pages_of
    {| subdetails := []; title_links := [];
       page_numbers := [ Sample.anchor "/book/page/1/" "1";
                         Sample.anchor "/book/page/1234/" "1.234";
                         Sample.anchor "/book/page/2/" "Siguiente" ];
       sinopsis := None; genero := None; downloadContainer := None |}
  = Ok 1234.
Proof.
  apply (total_pages_of_numeral _
           [ Sample.anchor "/book/page/1/" "1" ]
           (Sample.anchor "/book/page/1234/" "1.234")
           (Sample.anchor "/book/page/2/" "Siguiente") 1234).
  - reflexivity.
  - vm_compute; reflexivity.
  - vm_compute; lia.
Defined.

(** [strip] on the blanks of Unicode: a no-break space (U+00A0) in front
    and an ideographic space (U+3000) behind are removed, as are the
    next-line character (U+0085), the line separator (U+2028) and the
    separators 28..31; a zero-width space (U+200B) is no blank and
    stays. *)
Example strip_no_break_space :
  strip (of_bytes [194; 160; 97; 32; 98; 227; 128; 128]) = "a b".
Proof. vm_compute; reflexivity. Qed.

Example strip_line_separators :
  strip (of_bytes [194; 133; 28; 97; 31; 226; 128; 168]) = "a".
Proof. vm_compute; reflexivity. Qed.

Example strip_zero_width_space :
  strip (of_bytes [226; 128; 139; 97; 32])
  = of_bytes [226; 128; 139; 97].
Proof. vm_compute; reflexivity. Qed.

(** [py_int] as [int]: blanks of Unicode around the digits and digits of
    other scripts are read, the separators 28..31 are not blanks here, a
    blank after the sign and doubled or outer underscores are refused,
    and so are more than 4300 digits. *)
Example py_int_unicode :
  py_int (of_bytes [194; 160; 53; 227; 128; 128]) = Ok 5 /\
  py_int (of_bytes [217; 163; 95; 217; 164]) = Ok 34 /\
  py_int (of_bytes [239; 188; 145; 239; 188; 146]) = Ok 12.
Proof. repeat split; vm_compute; reflexivity. Qed.

Example py_int_refused :
  py_int (of_bytes [28; 53]) = Raise ValueError /\
  py_int "+ 5" = Raise ValueError /\
  py_int "1__0" = Raise ValueError /\
  py_int "_1" = Raise ValueError /\
  py_int "1_" = Raise ValueError /\
  py_int "" = Raise ValueError /\
  py_int (of_bytes (replicate 4301 49)) = Raise ValueError.
Proof. repeat split; vm_compute; reflexivity. Qed.

Example py_int_accepted :
  py_int " -1_0 " = Ok (-10) /\
  py_int "+007" = Ok 7 /\
  py_int (of_bytes (replicate 4300 48)) = Ok 0.
Proof. repeat split; vm_compute; reflexivity. Qed.

(** The description that is stored is free of the blanks of Unicode: a
    synopsis between a no-break space and an ideographic space. *)
Example get_book_details_strips_unicode_blanks :
  exists w',
    get_book_details
      (fun _ _ =>
         Page {| subdetails := []; title_links := []; page_numbers := [];
                 sinopsis :=
                   Some (of_bytes [194; 160] +:+ "Un hidalgo."
                         +:+ of_bytes [227; 128; 128]);
                 genero := Some [];
                 downloadContainer := Some [] |})
      0 Sample.enriching
    = Some (Ok tt, w') /\
    description <$> books_df w' !! 0%nat = Some (Str "Un hidalgo.").
Proof. eexists. split; vm_compute; reflexivity. Qed.
